(** * SurveyGizmo client: configuration, request preparation and dispatch

    A shallow embedding of [surveygizmo/surveygizmo.py] (classes [_Config],
    [_API] and [SurveyGizmo]) together with the properties its specification
    states about it.

    Python values are modelled as follows.
    - [str] (a Python 2 byte string) is [string]; an attribute that may be
      [None] is an [option string], and Python's truth test on it holds for
      [Some s] with [s] non-empty.
    - [dict] objects with string keys are [gmap string PyVal];
      [d.update(e)] is the left-biased union [e ∪ d].
    - an exception is a value of [Exn]; a call returns [Return v] or
      [Raise e].
    - mutable objects (the configuration, the dispatcher, the caller's
      [params] dict) are passed in and handed back with their final contents.
    - the interpreter's bound on nested calls is an explicit [depth]. *)

From Stdlib Require Import ZArith Lia Ascii String.
From stdpp Require Import gmap strings list fin_maps pretty.

Open Scope string_scope.

(** ** hashlib.md5

    [hashlib.md5(s).hexdigest()] is the MD5 message digest of RFC 1321
    printed as 32 lower-case hexadecimal digits.  Words are 32-bit values
    kept in [Z], reduced after every addition and rotation. *)

Module MD5.
Open Scope Z_scope.

Definition w32 (x : Z) : Z := Z.land x 0xffffffff.

Definition rotl (x c : Z) : Z :=
  w32 (Z.lor (Z.shiftl x c) (Z.shiftr x (32 - c))).

Definition lnot32 (x : Z) : Z := Z.lxor x 0xffffffff.

(** Per-round left-rotation amounts. *)
Definition S_table : list Z :=
  [ 7; 12; 17; 22; 7; 12; 17; 22; 7; 12; 17; 22; 7; 12; 17; 22;
    5;  9; 14; 20; 5;  9; 14; 20; 5;  9; 14; 20; 5;  9; 14; 20;
    4; 11; 16; 23; 4; 11; 16; 23; 4; 11; 16; 23; 4; 11; 16; 23;
    6; 10; 15; 21; 6; 10; 15; 21; 6; 10; 15; 21; 6; 10; 15; 21 ].

(** [K_table !! i = floor (2^32 * abs (sin (i + 1)))]. *)
Definition K_table : list Z :=
  [ 0xd76aa478; 0xe8c7b756; 0x242070db; 0xc1bdceee;
    0xf57c0faf; 0x4787c62a; 0xa8304613; 0xfd469501;
    0x698098d8; 0x8b44f7af; 0xffff5bb1; 0x895cd7be;
    0x6b901122; 0xfd987193; 0xa679438e; 0x49b40821;
    0xf61e2562; 0xc040b340; 0x265e5a51; 0xe9b6c7aa;
    0xd62f105d; 0x02441453; 0xd8a1e681; 0xe7d3fbc8;
    0x21e1cde6; 0xc33707d6; 0xf4d50d87; 0x455a14ed;
    0xa9e3e905; 0xfcefa3f8; 0x676f02d9; 0x8d2a4c8a;
    0xfffa3942; 0x8771f681; 0x6d9d6122; 0xfde5380c;
    0xa4beea44; 0x4bdecfa9; 0xf6bb4b60; 0xbebfbc70;
    0x289b7ec6; 0xeaa127fa; 0xd4ef3085; 0x04881d05;
    0xd9d4d039; 0xe6db99e5; 0x1fa27cf8; 0xc4ac5665;
    0xf4292244; 0x432aff97; 0xab9423a7; 0xfc93a039;
    0x655b59c3; 0x8f0ccc92; 0xffeff47d; 0x85845dd1;
    0x6fa87e4f; 0xfe2ce6e0; 0xa3014314; 0x4e0811a1;
    0xf7537e82; 0xbd3af235; 0x2ad7d2bb; 0xeb86d391 ].

Definition nthZ (l : list Z) (i : Z) : Z := default 0 (l !! Z.to_nat i).

(** The message as a list of octets. *)
Fixpoint bytes_of_string (s : string) : list Z :=
  match s with
  | EmptyString => []
  | String a rest => Z.of_N (Ascii.N_of_ascii a) :: bytes_of_string rest
  end.

(** [n] octets of [x], least significant first. *)
Fixpoint le_bytes (n : nat) (x : Z) : list Z :=
  match n with
  | O => []
  | S k => Z.land x 0xff :: le_bytes k (Z.shiftr x 8)
  end.

(** A single 1 bit, zero bits up to 448 modulo 512, then the bit length of
    the message as a 64-bit little-endian integer. *)
Definition pad (msg : list Z) : list Z :=
  let len := Z.of_nat (length msg) in
  let zeros := Z.to_nat ((55 - len) mod 64) in
  msg ++ [0x80] ++ replicate zeros 0 ++ le_bytes 8 (Z.land (8 * len) 0xffffffffffffffff).

Fixpoint word_of_le (bs : list Z) : Z :=
  match bs with
  | [] => 0
  | b :: rest => Z.lor b (Z.shiftl (word_of_le rest) 8)
  end.

(** The sixteen 32-bit words of a 64-octet block. *)
Fixpoint words_of (n : nat) (bs : list Z) : list Z :=
  match n with
  | O => []
  | S k => word_of_le (take 4 bs) :: words_of k (drop 4 bs)
  end.

Record state := State { sA : Z; sB : Z; sC : Z; sD : Z }.

Definition init : state :=
  State 0x67452301 0xefcdab89 0x98badcfe 0x10325476.

Definition step (M : list Z) (st : state) (i : Z) : state :=
  let '(State A B C D) := st in
  let '(F, g) :=
    if i <? 16 then (Z.lor (Z.land B C) (Z.land (lnot32 B) D), i)
    else if i <? 32 then (Z.lor (Z.land D B) (Z.land (lnot32 D) C), (5 * i + 1) mod 16)
    else if i <? 48 then (Z.lxor (Z.lxor B C) D, (3 * i + 5) mod 16)
    else (Z.lxor C (Z.lor B (lnot32 D)), (7 * i) mod 16) in
  let F' := w32 (F + A + nthZ K_table i + nthZ M g) in
  State D (w32 (B + rotl F' (nthZ S_table i))) B C.

Definition rounds : list Z := Z.of_nat <$> seq 0 64.

Definition block (st : state) (bs : list Z) : state :=
  let M := words_of 16 bs in
  let '(State A B C D) := fold_left (step M) rounds st in
  State (w32 (sA st + A)) (w32 (sB st + B)) (w32 (sC st + C)) (w32 (sD st + D)).

(** Consume [n] blocks of 64 octets. *)
Fixpoint blocks (n : nat) (st : state) (bs : list Z) : state :=
  match n with
  | O => st
  | S k => blocks k (block st (take 64 bs)) (drop 64 bs)
  end.

Definition digest (msg : list Z) : state :=
  let p := pad msg in
  blocks (length p / 64) init p.

Definition hexdigit (n : Z) : ascii :=
  default "0"%char (String.get (Z.to_nat n) "0123456789abcdef"%string).

Definition hexbyte (b : Z) (rest : string) : string :=
  String (hexdigit (Z.shiftr b 4)) (String (hexdigit (Z.land b 0xf)) rest).

(** A 32-bit word printed octet by octet, least significant octet first. *)
Definition hexword (w : Z) (rest : string) : string :=
  hexbyte (Z.land w 0xff)
    (hexbyte (Z.land (Z.shiftr w 8) 0xff)
      (hexbyte (Z.land (Z.shiftr w 16) 0xff)
        (hexbyte (Z.land (Z.shiftr w 24) 0xff) rest))).

Definition hexdigest (s : string) : string :=
  let st := digest (bytes_of_string s) in
  hexword (sA st) (hexword (sB st) (hexword (sC st) (hexword (sD st) EmptyString))).

End MD5.

(** ** Python values, exceptions and results *)

#[local] Set Warnings "-register-all,-clear-no-such-hyp".

(** The values that reach this module from its callers: scalars, and
    objects known by what [str()] prints for them, by their attributes and,
    for mappings, by their items. *)
Inductive PyVal :=
| PyNone
| PyBool (b : bool)
| PyInt (z : Z)
| PyStr (s : string)
| PyObj (shown : string) (attrs : list (string * PyVal))
        (items : option (list (string * PyVal))).

Inductive Exn :=
| ImproperlyConfigured (msg : string)
| AttributeError (name : string)
| KeyError (key : string)
| TypeError (msg : string)
| ValueError (msg : string)
| RuntimeError (msg : string)
| HTTPError (status : Z) (body : string)
| ConnectionError (msg : string).

Inductive Result (A : Type) :=
| Return (a : A)
| Raise (e : Exn).
Arguments Return {A} a.
Arguments Raise {A} e.

#[global] Instance Result_ret : MRet Result := λ A, @Return A.
#[global] Instance Result_bind : MBind Result := λ A B f m,
  match m with
  | Return a => f a
  | Raise e => Raise e
  end.

(** Association-list lookup, first binding wins. *)
Fixpoint assoc {A} (k : string) (l : list (string * A)) : option A :=
  match l with
  | [] => None
  | (k', v) :: rest => if decide (k = k') then Some v else assoc k rest
  end.

(** [str(v)], also what the [%s] conversion prints. *)
Definition py_str (v : PyVal) : string :=
  match v with
  | PyNone => "None"
  | PyBool true => "True"
  | PyBool false => "False"
  | PyInt z => pretty z
  | PyStr s => s
  | PyObj shown _ _ => shown
  end.

(** Python's truth test. *)
Definition py_truthy (v : PyVal) : bool :=
  match v with
  | PyNone => false
  | PyBool b => b
  | PyInt z => negb (Z.eqb z 0)
  | PyStr s => negb (String.eqb s EmptyString)
  | PyObj _ _ (Some items) => negb (Nat.eqb (length items) 0)
  | PyObj _ _ None => true
  end.

(** [v.name] *)
Definition py_getattr (v : PyVal) (name : string) : Result PyVal :=
  match v with
  | PyObj _ attrs _ =>
      match assoc name attrs with
      | Some x => Return x
      | None => Raise (AttributeError name)
      end
  | _ => Raise (AttributeError name)
  end.

(** [v.get(key, None)] *)
Definition py_get (v : PyVal) (key : string) : Result PyVal :=
  match v with
  | PyObj _ _ (Some items) => Return (default PyNone (assoc key items))
  | _ => Raise (AttributeError "get")
  end.

(** [v[key]] *)
Definition py_getitem (v : PyVal) (key : string) : Result PyVal :=
  match v with
  | PyObj _ _ (Some items) =>
      match assoc key items with
      | Some x => Return x
      | None => Raise (KeyError key)
      end
  | _ => Raise (TypeError "object is not subscriptable")
  end.

(** An optional string attribute under the truth test and under [%s]. *)
Definition truthy (o : option string) : bool :=
  match o with
  | Some (String _ _) => true
  | _ => false
  end.

Definition fmt (o : option string) : string :=
  match o with
  | Some s => s
  | None => "None"
  end.

(** ** _Config *)

Record Config := {
  api_version : string;
  auth_method : option string;
  username : option string;
  password : option string;
  md5_hash : option string;
  consumer_key : option string;
  consumer_secret : option string;
  access_token : option string;
  access_token_secret : option string;
  response_type : option string;
  requests_kwargs : gmap string PyVal
}.

(** [_Config.__init__] with no keyword argument given. *)
Definition default_config : Config := {|
  api_version := "head";
  auth_method := None;
  username := None;
  password := None;
  md5_hash := None;
  consumer_key := None;
  consumer_secret := None;
  access_token := None;
  access_token_secret := None;
  response_type := None;
  requests_kwargs := ∅
|}.

Definition set_md5_hash (h : option string) (c : Config) : Config := {|
  api_version := api_version c;
  auth_method := auth_method c;
  username := username c;
  password := password c;
  md5_hash := h;
  consumer_key := consumer_key c;
  consumer_secret := consumer_secret c;
  access_token := access_token c;
  access_token_secret := access_token_secret c;
  response_type := response_type c;
  requests_kwargs := requests_kwargs c
|}.

Definition validate (c : Config) : Result unit :=
  (if negb (bool_decide (auth_method c ∈ [Some "user:pass"; Some "user:md5"; Some "oauth"]))
   then Raise (ImproperlyConfigured "No authentication method provided.")
   else
     if decide (auth_method c = Some "user:pass") then
       if negb (truthy (username c)) || negb (truthy (password c))
       then Raise (ImproperlyConfigured
                     "Username and password for 'user:pass' authentication.")
       else Return ()
     else if decide (auth_method c = Some "user:md5") then
       if negb (truthy (username c))
       then Raise (ImproperlyConfigured
                     "Username required for 'user:md5' authentication.")
       else if negb (truthy (password c)) && negb (truthy (md5_hash c))
       then Raise (ImproperlyConfigured
                     "Password or md5 hash of password required for 'user:md5' authentication.")
       else Return ()
     else if decide (auth_method c = Some "oauth") then
       if negb (truthy (consumer_key c)) || negb (truthy (consumer_secret c))
          || negb (truthy (access_token c)) || negb (truthy (access_token_secret c))
       then Raise (ImproperlyConfigured
                     "OAuth consumer key and secret, and OAuth access token and secret required for 'oauth' authentication.")
       else Return ()
     else Return ()) ;;
  if negb (bool_decide (response_type c ∈
             [Some "json"; Some "pson"; Some "xml"; Some "debug"; None]))
  then Raise (ImproperlyConfigured EmptyString)
  else Return ().

(** ** Collaborators: the OAuth helper and the HTTP transport *)

(** Modelled from the spec: [oauth_helper.SGAuthService], a module of this
    package that is not part of the sources at hand.  Given the four OAuth
    credentials, [get_session] returns a reusable session able to perform
    signed GET requests; the session is known here by the credentials it
    signs with. *)
Record Session := {
  s_consumer_key : option string;
  s_consumer_secret : option string;
  s_access_token : option string;
  s_access_token_secret : option string
}.

Definition get_session (ck cs tok toksec : option string) : Session :=
  {| s_consumer_key := ck; s_consumer_secret := cs;
     s_access_token := tok; s_access_token_secret := toksec |}.

(** A decoded JSON document. *)
Inductive Json :=
| JNull
| JBool (b : bool)
| JInt (z : Z)
| JStr (s : string)
| JList (l : list Json)
| JDict (l : list (string * Json)).

(** The response object of the transport: its status, its [.text], what
    [.json()] gives and what [.raise_for_status()] does. *)
Record Response := {
  status_code : Z;
  text : string;
  json : Result Json;
  raise_for_status : Result unit
}.

(** A response of the [requests] library: [raise_for_status] raises
    [HTTPError] for the 4xx and 5xx statuses. *)
Definition requests_response (status : Z) (body : string) (decoded : Result Json)
  : Response := {|
  status_code := status;
  text := body;
  json := decoded;
  raise_for_status :=
    if ((400 <=? status) && (status <? 600))%Z
    then Raise (HTTPError status body)
    else Return ()
|}.

(** One GET handed to the transport: through the OAuth session or plain
    [requests.get], with the url, the query parameters and the forwarded
    keyword arguments. *)
Record Request := {
  via : option Session;
  req_url : string;
  req_params : gmap string PyVal;
  req_kwargs : gmap string PyVal
}.

(** The transport answers a request, given the requests made before it, with
    a response or with a network-level failure. *)
Definition Transport : Type := list Request → Request → Result Response.

(** ** _API *)

(** The dispatcher [self] with the objects it holds, and the requests that
    have gone out.  [__init__] also sets [_resources] to [None]; nothing
    below reads it. *)
Record World := {
  _config : Config;
  _filters : list (gmap string PyVal);
  _session : option Session;
  wire : list Request
}.

(** The facade [SurveyGizmo]: it builds the configuration and the
    dispatcher bound to it. *)
Definition SurveyGizmo (c : Config) : World :=
  {| _config := c; _filters := []; _session := None; wire := [] |}.

Definition set_config (c : Config) (w : World) : World :=
  {| _config := c; _filters := _filters w; _session := _session w; wire := wire w |}.

Definition set_filters (fs : list (gmap string PyVal)) (w : World) : World :=
  {| _config := _config w; _filters := fs; _session := _session w; wire := wire w |}.

Definition set_session (s : option Session) (w : World) : World :=
  {| _config := _config w; _filters := _filters w; _session := s; wire := wire w |}.

Definition send (r : Request) (w : World) : World :=
  {| _config := _config w; _filters := _filters w; _session := _session w;
     wire := wire w ++ [r] |}.

Definition base_url : string := "https://restapi.surveygizmo.com/".

(** The three keys of the filter numbered [i]. *)
Definition field_key (i : nat) : string := "filter[field][" +:+ pretty i +:+ "]".
Definition operator_key (i : nat) : string := "filter[operator][" +:+ pretty i +:+ "]".
Definition value_key (i : nat) : string := "filter[value][" +:+ pretty i +:+ "]".

Definition add_filter (w : World) (field operator value : PyVal) : World :=
  let i := length (_filters w) in
  set_filters
    (_filters w ++
      [ <[value_key i := PyStr (py_str value)]>
          (<[operator_key i := PyStr (py_str operator)]>
            (<[field_key i := PyStr (py_str field)]> ∅)) ])
    w.

(** [for _filter in self._filters: params.update(_filter)] *)
Definition merge_filters (fs : list (gmap string PyVal)) (params : gmap string PyVal)
  : gmap string PyVal :=
  foldl (λ p f, f ∪ p) params fs.

(** [prepare] works on two mutable objects, [self] and the caller's
    [params]; it is given both and hands both back, next to the url it
    returns or the exception it raises.  The returned pair [(url, params)]
    holds the very [params] object that was passed in.  The digest function
    is an argument so that its use can be observed; [prepare] below fixes it
    to MD5. *)
Definition prepare_with (hexdigest : string → string)
    (w : World) (tail : string) (params : gmap string PyVal) (keep : bool)
  : Result string * World * gmap string PyVal :=
  let config := _config w in
  match validate config with
  | Raise e => (Raise e, w, params)
  | Return _ =>
      let params := merge_filters (_filters w) params in
      let w := if negb keep then set_filters [] w else w in
      if decide (auth_method config = Some "user:pass") then
        let params :=
          <["user:pass" :=
              PyStr (fmt (username config) +:+ ":" +:+ fmt (password config))]> params in
        (Return (base_url +:+ tail), w, params)
      else if decide (auth_method config = Some "user:md5") then
        if negb (truthy (md5_hash config)) then
          match password config with
          | None => (Raise (TypeError "md5() argument 1 must be string or read-only buffer, not None"), w, params)
          | Some pw =>
              let config := set_md5_hash (Some (hexdigest pw)) config in
              let w := set_config config w in
              let params :=
                <["user:md5" :=
                    PyStr (fmt (username config) +:+ ":" +:+ fmt (md5_hash config))]> params in
              (Return (base_url +:+ tail), w, params)
          end
        else
          let params :=
            <["user:md5" :=
                PyStr (fmt (username config) +:+ ":" +:+ fmt (md5_hash config))]> params in
          (Return (base_url +:+ tail), w, params)
      else (Return (base_url +:+ tail), w, params)
  end.

Definition prepare := prepare_with MD5.hexdigest.

(** What a call hands back: the prepared pair, a decoded body or the raw
    text. *)
Inductive RetVal :=
| Prepared (url : string) (params : gmap string PyVal)
| Decoded (j : Json)
| RawText (s : string).

(** [execute] makes the call [get(url, params=params, ...)] with the
    configured keyword arguments added, and the transport answers it.  The
    call is taken to bind its arguments: keyword arguments that themselves
    name [params] or [url] make Python reject the call before the transport
    is entered, a case that is left out here and that the statements about
    the call going out exclude by hypothesis. *)
Definition execute (transport : Transport)
    (w : World) (url : string) (params : gmap string PyVal)
  : Result RetVal * World :=
  let config := _config w in
  let '(session, w) :=
    if decide (auth_method config = Some "oauth") then
      let w :=
        match _session w with
        | Some _ => w
        | None =>
            set_session
              (Some (get_session (consumer_key config) (consumer_secret config)
                                 (access_token config) (access_token_secret config)))
              w
        end in
      (_session w, w)
    else (None, w) in
  let request :=
    {| via := session; req_url := url; req_params := params;
       req_kwargs := requests_kwargs config |} in
  let response := transport (wire w) request in
  let w := send request w in
  match response with
  | Raise e => (Raise e, w)
  | Return response =>
      match raise_for_status response with
      | Raise e => (Raise e, w)
      | Return _ =>
          if negb (truthy (response_type config))
          then (j ← json response; Return (Decoded j), w)
          else (Return (RawText (text response)), w)
      end
  end.

(** [__getattr__] runs when ordinary lookup finds no attribute of that name.
    Its body reads [self._modules]; no attribute [_modules] is ever assigned
    ([__init__] assigns [_config], [_resources], [_filters] and [_session]),
    so that read is again a call of [__getattr__], one frame deeper.  With no
    frame left the interpreter raises [RuntimeError]. *)
Fixpoint __getattr__ (depth : nat) (name : string) : Result PyVal :=
  match depth with
  | O => Raise (RuntimeError "maximum recursion depth exceeded")
  | S depth =>
      modules ← __getattr__ depth "_modules";
      found ← py_get modules name;
      match found with
      | PyNone => Raise (AttributeError name)
      | _ =>
          modules ← __getattr__ depth "_modules";
          py_getitem modules name
      end
  end.

(** A resource callable: from its positional and keyword arguments to a
    [(tail, params)] pair. *)
Definition Resource : Type :=
  list PyVal → gmap string PyVal → Result (string * gmap string PyVal).

(** [kwargs.pop(key, False)] *)
Definition pop (key : string) (kwargs : gmap string PyVal)
  : PyVal * gmap string PyVal :=
  (default (PyBool false) (kwargs !! key), delete key kwargs).

(** [_wrap(func)], the wrapper put around every resource callable.  [self._sg]
    and [self._api_version] are attributes that are never assigned either,
    hence calls of [__getattr__]. *)
Definition _wrap (transport : Transport) (depth : nat) (func : Resource)
    (w : World) (args : list PyVal) (kwargs : gmap string PyVal)
  : Result RetVal * World :=
  let '(keep, kwargs) := pop "keep" kwargs in
  let '(url_fetch, kwargs) := pop "url_fetch" kwargs in
  match func args kwargs with
  | Raise e => (Raise e, w)
  | Return (tail, params) =>
      match
        sg ← __getattr__ depth "_sg";
        config ← py_getattr sg "config";
        response_type ← py_getattr config "response_type";
        let tail :=
          if py_truthy response_type
          then tail +:+ "." +:+ py_str response_type
          else tail in
        version ← __getattr__ depth "_api_version";
        Return (py_str version +:+ "/" +:+ tail)
      with
      | Raise e => (Raise e, w)
      | Return tail =>
          match prepare w tail params (py_truthy keep) with
          | (Raise e, w, _) => (Raise e, w)
          | (Return url, w, params) =>
              if py_truthy url_fetch
              then (Return (Prepared url params), w)
              else execute transport w url params
          end
      end
  end.

(** ** What the specification says [validate] rejects *)

(** A field is empty when it is unset or holds the empty string. *)
Definition empty (o : option string) : Prop := o = None ∨ o = Some EmptyString.

(** The five conditions of the specification, in its order. *)
Definition spec_rejects (c : Config) : Prop :=
  (auth_method c ≠ Some "user:pass" ∧ auth_method c ≠ Some "user:md5"
     ∧ auth_method c ≠ Some "oauth")
  ∨ (auth_method c = Some "user:pass"
     ∧ (empty (username c) ∨ empty (password c)))
  ∨ (auth_method c = Some "user:md5"
     ∧ (empty (username c) ∨ (empty (password c) ∧ empty (md5_hash c))))
  ∨ (auth_method c = Some "oauth"
     ∧ (empty (consumer_key c) ∨ empty (consumer_secret c)
        ∨ empty (access_token c) ∨ empty (access_token_secret c)))
  ∨ (∃ v, response_type c = Some v ∧ v ∉ ["json"; "pson"; "xml"; "debug"]).

(** The first four of them: the authentication method and the fields it
    needs. *)
Definition auth_rejects (c : Config) : Prop :=
  (auth_method c ≠ Some "user:pass" ∧ auth_method c ≠ Some "user:md5"
     ∧ auth_method c ≠ Some "oauth")
  ∨ (auth_method c = Some "user:pass"
     ∧ (empty (username c) ∨ empty (password c)))
  ∨ (auth_method c = Some "user:md5"
     ∧ (empty (username c) ∨ (empty (password c) ∧ empty (md5_hash c))))
  ∨ (auth_method c = Some "oauth"
     ∧ (empty (consumer_key c) ∨ empty (consumer_secret c)
        ∨ empty (access_token c) ∨ empty (access_token_secret c))).

(** ** Sequences of calls *)

(** The dict that [add_filter] appends as entry [i]. *)
Definition filter_entry (i : nat) (call : PyVal * PyVal * PyVal)
  : gmap string PyVal :=
  let '(field, operator, value) := call in
  <[value_key i := PyStr (py_str value)]>
    (<[operator_key i := PyStr (py_str operator)]>
      (<[field_key i := PyStr (py_str field)]> ∅)).

(** [add_filter], once per call of the list, in order. *)
Definition add_filters (w : World) (calls : list (PyVal * PyVal * PyVal)) : World :=
  foldl (λ w '(field, operator, value), add_filter w field operator value) w calls.

(** What it is for [params'] to be [params] with the filters [fs] merged
    in, stated key by key and leaving the two authentication keys aside: a
    key that no filter holds has what [params] had for it, and a key that
    some filter holds has the value of the last filter that holds it. *)
Definition filters_merged (fs : list (gmap string PyVal))
    (params params' : gmap string PyVal) : Prop :=
  ∀ k, k ≠ "user:pass" → k ≠ "user:md5" →
    ((∀ j e, fs !! j = Some e → e !! k = None) → params' !! k = params !! k)
    ∧ (∀ i e v,
         fs !! i = Some e → e !! k = Some v →
         (∀ j e', fs !! j = Some e' → i < j → e' !! k = None) →
         params' !! k = Some v).

(** ** Sample configurations and transports *)

Definition bob : Config := {|
  api_version := "head";
  auth_method := Some "user:md5";
  username := Some "bob";
  password := Some "secret";
  md5_hash := None;
  consumer_key := None;
  consumer_secret := None;
  access_token := None;
  access_token_secret := None;
  response_type := None;
  requests_kwargs := ∅
|}.

Definition alice : Config := {|
  api_version := "head";
  auth_method := Some "user:pass";
  username := Some "alice";
  password := Some "wonderland";
  md5_hash := None;
  consumer_key := None;
  consumer_secret := None;
  access_token := None;
  access_token_secret := None;
  response_type := None;
  requests_kwargs := ∅
|}.

Definition with_response_type (rt : option string) (c : Config) : Config := {|
  api_version := api_version c;
  auth_method := auth_method c;
  username := username c;
  password := password c;
  md5_hash := md5_hash c;
  consumer_key := consumer_key c;
  consumer_secret := consumer_secret c;
  access_token := access_token c;
  access_token_secret := access_token_secret c;
  response_type := rt;
  requests_kwargs := requests_kwargs c
|}.

(** A transport stub that answers every request with the same response. *)
Definition stub (r : Response) : Transport := λ _ _, Return r.

Definition result_1 : string := "{" +:+ String (ascii_of_nat 34) "result"
                                 +:+ String (ascii_of_nat 34) ":1}".

Definition ok_response : Response :=
  requests_response 200 result_1 (Return (JDict [("result", JInt 1)])).

Definition error_response : Response :=
  requests_response 500 "Internal Server Error"
    (Raise (ValueError "No JSON object could be decoded")).

(** A response of [requests] to a redirect that is not followed. *)
Definition redirect_response : Response :=
  requests_response 302 "moved"
    (Raise (ValueError "No JSON object could be decoded")).

(** A resource callable that lists surveys. *)
Definition survey_list : Resource := λ _ _, Return ("survey", ∅).

(** An oauth configuration, and a user:md5 one that brings its hash. *)
Definition carol : Config := {|
  api_version := "head";
  auth_method := Some "oauth";
  username := None;
  password := None;
  md5_hash := None;
  consumer_key := Some "ck";
  consumer_secret := Some "cs";
  access_token := Some "tok";
  access_token_secret := Some "toksec";
  response_type := None;
  requests_kwargs := {[ "timeout" := PyInt 30 ]}
|}.

Definition dave : Config := {|
  api_version := "head";
  auth_method := Some "user:md5";
  username := Some "dave";
  password := Some "secret";
  md5_hash := Some "0123456789abcdef0123456789abcdef";
  consumer_key := None;
  consumer_secret := None;
  access_token := None;
  access_token_secret := None;
  response_type := None;
  requests_kwargs := ∅
|}.

(** * Properties *)

(** ** Validation *)

Lemma truthy_false (o : option string) : truthy o = false ↔ empty o.
Proof.
  unfold empty. destruct o as [[|a s]|]; simpl; split; intros H;
    try done; auto; destruct H; discriminate.
Qed.

Lemma truthy_true (o : option string) : truthy o = true ↔ ¬ empty o.
Proof.
  unfold empty. destruct o as [[|a s]|]; simpl; naive_solver.
Qed.

Lemma negb_truthy (o : option string) : negb (truthy o) = true ↔ empty o.
Proof. rewrite negb_true_iff. apply truthy_false. Qed.

(** The check of [response_type] alone. *)
Lemma response_type_listed (c : Config) :
  bool_decide (response_type c ∈
     [Some "json"; Some "pson"; Some "xml"; Some "debug"; None]) = false
  ↔ ∃ v, response_type c = Some v ∧ v ∉ ["json"; "pson"; "xml"; "debug"].
Proof.
  rewrite bool_decide_eq_false. split.
  - intros H. destruct (response_type c) as [v|]; [|set_solver].
    exists v. split; [done|]. set_solver.
  - intros (v & -> & Hv). set_solver.
Qed.

(** [validate] either passes or raises [ImproperlyConfigured]. *)
Lemma validate_cases (c : Config) :
  validate c = Return () ∨ ∃ msg, validate c = Raise (ImproperlyConfigured msg).
Proof.
  unfold validate, mbind, Result_bind.
  repeat (case_match; eauto).
Qed.

Lemma validate_rejects_iff (c : Config) :
  (∃ msg, validate c = Raise (ImproperlyConfigured msg)) ↔ spec_rejects c.
Proof.
  assert (Hsplit : spec_rejects c ↔ auth_rejects c
            ∨ ∃ v, response_type c = Some v ∧ v ∉ ["json"; "pson"; "xml"; "debug"]).
  { unfold spec_rejects, auth_rejects. tauto. }
  rewrite Hsplit. clear Hsplit.
  rewrite <- response_type_listed.
  unfold validate, mbind, Result_bind, auth_rejects.
  destruct (bool_decide (response_type c ∈ _)); simpl.
  all: destruct (bool_decide (auth_method c ∈ _)) eqn:Eauth; simpl.
  all: try apply bool_decide_eq_true in Eauth; try apply bool_decide_eq_false in Eauth.
  all: rewrite ?elem_of_cons, ?elem_of_nil in Eauth.
  all: repeat case_decide; simpl.
  all: repeat match goal with
       | |- context [negb (truthy ?o)] => 
           let E := fresh "E" in destruct (truthy o) eqn:E; 
           [apply truthy_true in E | apply truthy_false in E]; simpl
       end.
  all: match goal with
       | |- (∃ msg, Raise _ = Raise _) ↔ _ => split; [intros _ | intros _; eauto]
       | |- (∃ msg, Return _ = Raise _) ↔ _ =>
           split; [intros [? ?]; discriminate | intros ?; exfalso]
       end.
  all: intuition congruence.
Qed.

Lemma validate_passes_iff (c : Config) :
  validate c = Return () ↔ ¬ spec_rejects c.
Proof.
  rewrite <- validate_rejects_iff.
  destruct (validate_cases c) as [H|[msg H]]; rewrite H.
  - split; [|done]. intros _ [? ?]. discriminate.
  - split; [discriminate|]. intros []. eauto.
Qed.

(** C1. [validate] raises [ImproperlyConfigured] exactly when one of the
    conditions listed by the specification holds: an unrecognised
    authentication method; user:pass with an empty username or password;
    user:md5 with an empty username, or with both password and md5 hash
    empty; oauth with one of its four credentials empty; or a response type
    set to something other than json, pson, xml or debug.  On every other
    configuration it passes. *)
Theorem validate_raises_iff_listed (c : Config) :
  ((∃ msg, validate c = Raise (ImproperlyConfigured msg)) ↔ spec_rejects c)
  ∧ (validate c = Return () ↔ ¬ spec_rejects c).
Proof.
  split; [apply validate_rejects_iff | apply validate_passes_iff].
Qed.

(** ** Preparation *)

Lemma not_empty_Some (o : option string) :
  ¬ empty o → ∃ s, o = Some s ∧ s ≠ EmptyString.
Proof.
  unfold empty. destruct o as [s|]; [|tauto].
  intros H. exists s. split; [done|]. intros ->. tauto.
Qed.

Lemma validate_user_pass (c : Config) :
  validate c = Return () → auth_method c = Some "user:pass" →
  ∃ u p, username c = Some u ∧ password c = Some p
         ∧ u ≠ EmptyString ∧ p ≠ EmptyString.
Proof.
  rewrite validate_passes_iff. unfold spec_rejects. intros Hok Hauth.
  destruct (not_empty_Some (username c)) as (u & ? & ?); [tauto|].
  destruct (not_empty_Some (password c)) as (p & ? & ?); [tauto|].
  eauto 10.
Qed.

Lemma validate_user_md5 (c : Config) :
  validate c = Return () → auth_method c = Some "user:md5" →
  truthy (md5_hash c) = false →
  ∃ pw, password c = Some pw ∧ pw ≠ EmptyString.
Proof.
  rewrite validate_passes_iff, truthy_false. unfold spec_rejects.
  intros Hok Hauth Hmd5. apply not_empty_Some. tauto.
Qed.

(** Storing a digest keeps a valid configuration valid. *)
Lemma validate_set_md5_hash (c : Config) (h : string) :
  validate c = Return () → auth_method c = Some "user:md5" →
  truthy (md5_hash c) = false →
  validate (set_md5_hash (Some h) c) = Return ().
Proof.
  rewrite !validate_passes_iff, truthy_false.
  unfold spec_rejects. simpl. intros Hok Hauth Hmd5.
  intros [H|[H|[H|[H|H]]]]; tauto.
Qed.

(** The digest printed by [MD5.hexdigest] has 32 characters; it is never
    the empty string. *)
Lemma hexdigest_length (s : string) : String.length (MD5.hexdigest s) = 32.
Proof. reflexivity. Qed.

Lemma hexdigest_truthy (s : string) : truthy (Some (MD5.hexdigest s)) = true.
Proof. reflexivity. Qed.

Section prepare.
Context (hexdigest : string → string).
Context (w : World) (tail : string) (params : gmap string PyVal) (keep : bool).
Context (Hvalid : validate (_config w) = Return ()).

(** The dispatcher after the filters have been merged. *)
Let merged := merge_filters (_filters w) params.
Let w1 := if negb keep then set_filters [] w else w.

Lemma prepare_user_pass :
  auth_method (_config w) = Some "user:pass" →
  prepare_with hexdigest w tail params keep =
    (Return (base_url +:+ tail), w1,
     <["user:pass" := PyStr (fmt (username (_config w)) +:+ ":"
                             +:+ fmt (password (_config w)))]> merged).
Proof.
  intros Hauth. unfold prepare_with. rewrite Hvalid.
  rewrite decide_True by done. done.
Qed.

Lemma prepare_user_md5_computed (pw : string) :
  auth_method (_config w) = Some "user:md5" →
  truthy (md5_hash (_config w)) = false →
  password (_config w) = Some pw →
  prepare_with hexdigest w tail params keep =
    (Return (base_url +:+ tail),
     set_config (set_md5_hash (Some (hexdigest pw)) (_config w)) w1,
     <["user:md5" := PyStr (fmt (username (_config w)) +:+ ":"
                            +:+ hexdigest pw)]> merged).
Proof.
  intros Hauth Hmd5 Hpw. unfold prepare_with. rewrite Hvalid.
  rewrite decide_False by congruence. rewrite decide_True by done.
  rewrite Hmd5, Hpw. done.
Qed.

Lemma prepare_user_md5_stored :
  auth_method (_config w) = Some "user:md5" →
  truthy (md5_hash (_config w)) = true →
  prepare_with hexdigest w tail params keep =
    (Return (base_url +:+ tail), w1,
     <["user:md5" := PyStr (fmt (username (_config w)) +:+ ":"
                            +:+ fmt (md5_hash (_config w)))]> merged).
Proof.
  intros Hauth Hmd5. unfold prepare_with. rewrite Hvalid.
  rewrite decide_False by congruence. rewrite decide_True by done.
  rewrite Hmd5. done.
Qed.

Lemma prepare_oauth :
  auth_method (_config w) = Some "oauth" →
  prepare_with hexdigest w tail params keep =
    (Return (base_url +:+ tail), w1, merged).
Proof.
  intros Hauth. unfold prepare_with. rewrite Hvalid.
  rewrite !decide_False by congruence. done.
Qed.

(** Under a valid configuration the authentication method is one of the
    three. *)
Lemma valid_auth_method :
  auth_method (_config w) = Some "user:pass"
  ∨ auth_method (_config w) = Some "user:md5"
  ∨ auth_method (_config w) = Some "oauth".
Proof.
  apply validate_passes_iff in Hvalid. unfold spec_rejects in Hvalid.
  destruct (decide (auth_method (_config w) = Some "user:pass")); [tauto|].
  destruct (decide (auth_method (_config w) = Some "user:md5")); [tauto|].
  destruct (decide (auth_method (_config w) = Some "oauth")); tauto.
Qed.

(** Whatever the method, a valid configuration makes [prepare] return,
    with the filter list kept or emptied, the session and the wire as they
    were, the configuration still valid, and [params] equal to the merged
    filters outside the two authentication keys. *)
Lemma prepare_valid :
  ∃ w' params',
    prepare_with hexdigest w tail params keep
      = (Return (base_url +:+ tail), w', params')
    ∧ _filters w' = (if keep then _filters w else [])
    ∧ _session w' = _session w
    ∧ wire w' = wire w
    ∧ validate (_config w') = Return ()
    ∧ ∀ k, k ≠ "user:pass" → k ≠ "user:md5" → params' !! k = merged !! k.
Proof.
  assert (Hw1 : _filters w1 = (if keep then _filters w else [])
                ∧ _session w1 = _session w ∧ wire w1 = wire w
                ∧ _config w1 = _config w).
  { subst w1. by destruct keep. }
  destruct Hw1 as (Hf & Hs & Hwire & Hc).
  destruct valid_auth_method as [Hauth|[Hauth|Hauth]].
  - rewrite prepare_user_pass by done. do 2 eexists. split; [done|].
    rewrite Hc. repeat split; try done. intros k ? ?. by rewrite lookup_insert_ne.
  - destruct (truthy (md5_hash (_config w))) eqn:Hmd5.
    + rewrite prepare_user_md5_stored by done. do 2 eexists. split; [done|].
      rewrite Hc. repeat split; try done. intros k ? ?. by rewrite lookup_insert_ne.
    + destruct (validate_user_md5 _ Hvalid Hauth Hmd5) as (pw & Hpw & _).
      rewrite (prepare_user_md5_computed pw) by done.
      do 2 eexists. split; [done|].
      repeat split; try done.
      * by apply validate_set_md5_hash.
      * intros k ? ?. by rewrite lookup_insert_ne.
  - rewrite prepare_oauth by done. do 2 eexists. split; [done|].
    rewrite Hc. repeat split; done.
Qed.
End prepare.

(** ** Filters *)

Lemma app_char_inj (a : ascii) (s1 s2 : string) :
  s1 +:+ String a EmptyString = s2 +:+ String a EmptyString → s1 = s2.
Proof.
  revert s2. induction s1 as [|b s1 IH]; intros [|c s2]; simpl; intros H.
  - done.
  - injection H as _ H. destruct s2; discriminate.
  - injection H as _ H. destruct s1; discriminate.
  - injection H as -> H. f_equal. by apply IH.
Qed.

Lemma field_key_inj (i j : nat) : field_key i = field_key j → i = j.
Proof.
  unfold field_key. intros H.
  apply (inj (String.append _)), app_char_inj in H. by apply (inj pretty).
Qed.

Lemma operator_key_inj (i j : nat) : operator_key i = operator_key j → i = j.
Proof.
  unfold operator_key. intros H.
  apply (inj (String.append _)), app_char_inj in H. by apply (inj pretty).
Qed.

Lemma value_key_inj (i j : nat) : value_key i = value_key j → i = j.
Proof.
  unfold value_key. intros H.
  apply (inj (String.append _)), app_char_inj in H. by apply (inj pretty).
Qed.

(** Keys of different kinds differ at their eighth character, and every
    one of them differs from the authentication keys at its first. *)
Lemma filter_keys_apart (i j : nat) :
  field_key i ≠ operator_key j ∧ field_key i ≠ value_key j
  ∧ operator_key i ≠ value_key j.
Proof.
  unfold field_key, operator_key, value_key.
  repeat split; intros H; cbv [String.append] in H; congruence.
Qed.

Lemma filter_keys_not_auth (i : nat) (k : string) :
  k = field_key i ∨ k = operator_key i ∨ k = value_key i →
  k ≠ "user:pass" ∧ k ≠ "user:md5".
Proof.
  unfold field_key, operator_key, value_key.
  intros [-> | [-> | ->]]; split; intros H; cbv [String.append] in H; congruence.
Qed.

Lemma add_filters_filters (calls : list (PyVal * PyVal * PyVal)) (w : World) :
  _filters (add_filters w calls)
  = (_filters w ++ imap (λ i, filter_entry (length (_filters w) + i)) calls)%list.
Proof.
  revert w. induction calls as [|[[f o] v] calls IH]; intros w.
  - simpl. by rewrite app_nil_r.
  - change (add_filters w ((f, o, v) :: calls))
      with (add_filters (add_filter w f o v) calls).
    rewrite IH. simpl.
    rewrite <- app_assoc. simpl. rewrite Nat.add_0_r. do 2 f_equal.
    apply imap_ext. intros i x _. simpl. rewrite length_app. simpl.
    f_equal. lia.
Qed.

Lemma add_filters_frame (calls : list (PyVal * PyVal * PyVal)) (w : World) :
  _config (add_filters w calls) = _config w
  ∧ _session (add_filters w calls) = _session w
  ∧ wire (add_filters w calls) = wire w.
Proof.
  revert w. induction calls as [|[[f o] v] calls IH]; intros w; [done|].
  change (add_filters w ((f, o, v) :: calls))
    with (add_filters (add_filter w f o v) calls).
  destruct (IH (add_filter w f o v)) as (-> & -> & ->). done.
Qed.

Lemma filter_entry_lookup (i j : nat) (f o v : PyVal) :
  (filter_entry i (f, o, v) !! field_key j
     = if decide (i = j) then Some (PyStr (py_str f)) else None)
  ∧ (filter_entry i (f, o, v) !! operator_key j
     = if decide (i = j) then Some (PyStr (py_str o)) else None)
  ∧ (filter_entry i (f, o, v) !! value_key j
     = if decide (i = j) then Some (PyStr (py_str v)) else None).
Proof.
  pose proof (filter_keys_apart i j) as (? & ? & ?).
  pose proof (filter_keys_apart j i) as (? & ? & ?).
  unfold filter_entry. repeat split; case_decide; subst.
  all: rewrite ?lookup_insert_eq; try done.
  all: repeat (rewrite lookup_insert_ne; [|
    first [ done | congruence
          | intros ?%field_key_inj; done
          | intros ?%operator_key_inj; done
          | intros ?%value_key_inj; done ]]).
  all: rewrite ?lookup_insert_eq, ?lookup_empty; done.
Qed.

Lemma filter_entry_dom (i : nat) (call : PyVal * PyVal * PyVal) :
  dom (filter_entry i call) = {[field_key i; operator_key i; value_key i]}
  ∧ size (filter_entry i call) = 3.
Proof.
  destruct call as [[f o] v].
  pose proof (filter_keys_apart i i) as (? & ? & ?).
  unfold filter_entry. split.
  - rewrite !dom_insert_L, dom_empty_L. set_solver.
  - rewrite !map_size_insert_None, map_size_empty; [done|..].
    + by rewrite lookup_empty.
    + rewrite lookup_insert_ne by done. by rewrite lookup_empty.
    + rewrite !lookup_insert_ne by done. by rewrite lookup_empty.
Qed.

(** A key held by exactly one of the filters comes out of the merge with
    that filter's value. *)
Lemma merge_filters_absent (fs : list (gmap string PyVal))
    (params : gmap string PyVal) (k : string) :
  (∀ j e, fs !! j = Some e → e !! k = None) →
  merge_filters fs params !! k = params !! k.
Proof.
  unfold merge_filters. revert params.
  induction fs as [|e fs IH]; intros params Hk; simpl; [done|].
  rewrite IH.
  - rewrite lookup_union_r; [done|]. by apply (Hk 0).
  - intros j e' Hj. by apply (Hk (S j)).
Qed.

Lemma merge_filters_lookup (fs : list (gmap string PyVal))
    (params : gmap string PyVal) (k : string) (i : nat)
    (e : gmap string PyVal) (v : PyVal) :
  fs !! i = Some e → e !! k = Some v →
  (∀ j e', fs !! j = Some e' → j ≠ i → e' !! k = None) →
  merge_filters fs params !! k = Some v.
Proof.
  revert params i. induction fs as [|e0 fs IH]; intros params i Hi Hv Hk; [done|].
  destruct i as [|i]; simpl in Hi.
  - injection Hi as ->.
    change (merge_filters (e :: fs) params) with (merge_filters fs (e ∪ params)).
    rewrite merge_filters_absent.
    + by apply lookup_union_Some_l.
    + intros j e' Hj. by apply (Hk (S j)).
  - change (merge_filters (e0 :: fs) params) with (merge_filters fs (e0 ∪ params)).
    apply (IH _ i); [done..|].
    intros j e' Hj Hne. apply (Hk (S j)); [done|lia].
Qed.

(** After the calls, starting from an empty filter list, entry [i] is the
    dict of call [i]. *)
Lemma add_filters_lookup (w : World) (calls : list (PyVal * PyVal * PyVal)) (i : nat) :
  _filters w = [] →
  _filters (add_filters w calls) !! i = filter_entry i <$> calls !! i.
Proof.
  intros Hw. rewrite add_filters_filters, Hw. simpl.
  by rewrite list_lookup_imap.
Qed.

(** Each of the three keys of call [i] comes out of the merge with the value
    call [i] gave it. *)
Lemma merge_add_filters_lookup (w : World) (calls : list (PyVal * PyVal * PyVal))
    (params : gmap string PyVal) (i : nat) (f o v : PyVal) :
  _filters w = [] → calls !! i = Some (f, o, v) →
  merge_filters (_filters (add_filters w calls)) params !! field_key i
    = Some (PyStr (py_str f))
  ∧ merge_filters (_filters (add_filters w calls)) params !! operator_key i
    = Some (PyStr (py_str o))
  ∧ merge_filters (_filters (add_filters w calls)) params !! value_key i
    = Some (PyStr (py_str v)).
Proof.
  intros Hw Hi.
  assert (Hentry : _filters (add_filters w calls) !! i = Some (filter_entry i (f, o, v))).
  { rewrite add_filters_lookup by done. by rewrite Hi. }
  pose proof (filter_entry_lookup i i f o v) as (Hf & Ho & Hv).
  rewrite decide_True in Hf, Ho, Hv by done.
  repeat split.
  all: eapply merge_filters_lookup; [exact Hentry | done |].
  all: intros j e' Hj Hne; rewrite add_filters_lookup in Hj by done.
  all: destruct (calls !! j) as [[[f' o'] v']|]; [|done].
  all: injection Hj as <-.
  all: pose proof (filter_entry_lookup j i f' o' v') as (Hf' & Ho' & Hv').
  all: rewrite decide_False in Hf', Ho', Hv' by done; done.
Qed.

(** C4. From an empty filter list, [n] calls of [add_filter] leave exactly
    [n] entries.  Entry [i], counting from zero in the order of the calls, has
    exactly the three keys filter[field][i], filter[operator][i] and
    filter[value][i], mapped to [str] of the field, operator and value of call
    [i]; and once [prepare] has merged the filters, [params] holds each of
    these keys, index unchanged, with that same value. *)
Theorem add_filter_numbers_entries
    (w : World) (calls : list (PyVal * PyVal * PyVal)) :
  _filters w = [] →
  length (_filters (add_filters w calls)) = length calls
  ∧ ∀ i field operator value,
      calls !! i = Some (field, operator, value) →
      ∃ entry,
        _filters (add_filters w calls) !! i = Some entry
        ∧ field_key i = "filter[field][" +:+ pretty i +:+ "]"
        ∧ operator_key i = "filter[operator][" +:+ pretty i +:+ "]"
        ∧ value_key i = "filter[value][" +:+ pretty i +:+ "]"
        ∧ dom entry = {[field_key i; operator_key i; value_key i]}
        ∧ size entry = 3
        ∧ entry !! field_key i = Some (PyStr (py_str field))
        ∧ entry !! operator_key i = Some (PyStr (py_str operator))
        ∧ entry !! value_key i = Some (PyStr (py_str value))
        ∧ ∀ tail params keep,
            validate (_config w) = Return () →
            ∃ w' params',
              prepare (add_filters w calls) tail params keep
                = (Return (base_url +:+ tail), w', params')
              ∧ params' !! field_key i = Some (PyStr (py_str field))
              ∧ params' !! operator_key i = Some (PyStr (py_str operator))
              ∧ params' !! value_key i = Some (PyStr (py_str value)).
Proof.
  intros Hw. split.
  - rewrite add_filters_filters, Hw. simpl. apply length_imap.
  - intros i f o v Hi. exists (filter_entry i (f, o, v)).
    split; [rewrite add_filters_lookup by done; by rewrite Hi|].
    do 3 (split; [reflexivity|]).
    destruct (filter_entry_dom i (f, o, v)) as [Hdom Hsize].
    split; [exact Hdom|]. split; [exact Hsize|].
    pose proof (filter_entry_lookup i i f o v) as (Hf & Ho & Hv).
    rewrite decide_True in Hf, Ho, Hv by reflexivity.
    split; [exact Hf|]. split; [exact Ho|]. split; [exact Hv|].
    intros tail params keep Hvalid.
    destruct (add_filters_frame calls w) as (Hc & _ & _).
    rewrite <- Hc in Hvalid.
    destruct (prepare_valid MD5.hexdigest _ tail params keep Hvalid)
      as (w' & params' & Heq & _ & _ & _ & _ & Hp).
    exists w', params'. split; [exact Heq|].
    destruct (merge_add_filters_lookup w calls params i f o v Hw Hi)
      as (Hmf & Hmo & Hmv).
    destruct (filter_keys_not_auth i (field_key i)) as [? ?]; [auto|].
    destruct (filter_keys_not_auth i (operator_key i)) as [? ?]; [auto|].
    destruct (filter_keys_not_auth i (value_key i)) as [? ?]; [auto|].
    rewrite (Hp (field_key i)), (Hp (operator_key i)), (Hp (value_key i)) by assumption.
    split; [exact Hmf|]. split; [exact Hmo | exact Hmv].
Qed.


Lemma add_filter_numbers_entries_witness :
  length (_filters (add_filters (SurveyGizmo alice)
            [(PyStr "status", PyStr "=", PyStr "Launched");
             (PyStr "istestdata", PyStr "<>", PyBool true)])) = 2
  ∧ ∃ entry,
      _filters (add_filters (SurveyGizmo alice)
            [(PyStr "status", PyStr "=", PyStr "Launched");
             (PyStr "istestdata", PyStr "<>", PyBool true)]) !! 1 = Some entry
      ∧ entry !! "filter[value][1]" = Some (PyStr "True").
Proof.
  destruct (add_filter_numbers_entries (SurveyGizmo alice)
              [(PyStr "status", PyStr "=", PyStr "Launched");
               (PyStr "istestdata", PyStr "<>", PyBool true)] eq_refl)
    as [Hlen Hentries].
  split; [exact Hlen|].
  destruct (Hentries 1 (PyStr "istestdata") (PyStr "<>") (PyBool true) eq_refl)
    as (entry & He & _ & _ & _ & _ & _ & _ & _ & Hv & _).
  exists entry. split; [exact He | exact Hv].
Defined.

(** ** Claims about [prepare] *)

(** C10. When [validate] fails, [prepare] raises that very error and leaves
    the dispatcher, its filter list included, and the caller's [params] as
    they were: validation comes before any merging or clearing. *)
Theorem prepare_invalid_config_untouched
    (w : World) (tail : string) (params : gmap string PyVal) (keep : bool)
    (e : Exn) :
  validate (_config w) = Raise e →
  prepare w tail params keep = (Raise e, w, params).
Proof.
  intros H. unfold prepare, prepare_with. by rewrite H.
Qed.

Lemma prepare_invalid_config_untouched_witness :
  prepare (add_filter (SurveyGizmo default_config) (PyStr "status") (PyStr "=") (PyStr "Launched"))
          "head/survey" {[ "page" := PyInt 2 ]} false
  = (Raise (ImproperlyConfigured "No authentication method provided."),
     add_filter (SurveyGizmo default_config) (PyStr "status") (PyStr "=") (PyStr "Launched"),
     {[ "page" := PyInt 2 ]}).
Proof.
  apply (prepare_invalid_config_untouched
           (add_filter (SurveyGizmo default_config) (PyStr "status") (PyStr "=") (PyStr "Launched"))).
  reflexivity.
Defined.

(** The value that comes out of the merge for a key is that of the last
    filter holding it. *)
Lemma merge_filters_last (fs : list (gmap string PyVal))
    (params : gmap string PyVal) (k : string) (i : nat)
    (e : gmap string PyVal) (v : PyVal) :
  fs !! i = Some e → e !! k = Some v →
  (∀ j e', fs !! j = Some e' → i < j → e' !! k = None) →
  merge_filters fs params !! k = Some v.
Proof.
  revert params i. induction fs as [|e0 fs IH]; intros params i Hi Hv Hk;
    [discriminate Hi|].
  change (merge_filters (e0 :: fs) params) with (merge_filters fs (e0 ∪ params)).
  destruct i as [|i]; simpl in Hi.
  - injection Hi as ->. rewrite merge_filters_absent.
    + apply lookup_union_Some_l. exact Hv.
    + intros j e' Hj. apply (Hk (S j) e' Hj). lia.
  - apply (IH _ i Hi Hv). intros j e' Hj Hlt.
    apply (Hk (S j) e' Hj). lia.
Qed.

(** What [prepare] leaves in [params] is the merge, key by key. *)
Lemma prepare_valid_merged (digest : string → string) (w : World) (tail : string)
    (params : gmap string PyVal) (keep : bool) :
  validate (_config w) = Return () →
  ∃ w' params',
    prepare_with digest w tail params keep
      = (Return (base_url +:+ tail), w', params')
    ∧ _filters w' = (if keep then _filters w else [])
    ∧ validate (_config w') = Return ()
    ∧ filters_merged (_filters w) params params'.
Proof.
  intros Hvalid.
  destruct (prepare_valid digest w tail params keep Hvalid)
    as (w' & params' & Heq & Hf & _ & _ & Hvalid' & Hp).
  exists w', params'. split; [exact Heq|]. split; [exact Hf|].
  split; [exact Hvalid'|].
  intros k Hk1 Hk2. rewrite (Hp k Hk1 Hk2). split.
  - intros Habsent. apply merge_filters_absent. exact Habsent.
  - intros i e v Hi Hv Hlater. exact (merge_filters_last _ _ _ i e v Hi Hv Hlater).
Qed.

(** C3. With a valid configuration, [prepare] with [keep=False] returns with
    the filter list emptied and with [keep=True] returns with the filter list
    as it was.  Either way the filters have been merged into [params]: every
    key other than the authentication keys has the value of the last filter
    that holds it, or what the caller's [params] had for it when no filter
    holds it.  After [keep=True] the next [prepare] merges the same filters
    again, into the [params] it is given. *)
Theorem prepare_clears_or_keeps_filters
    (w : World) (tail : string) (params : gmap string PyVal) :
  validate (_config w) = Return () →
  (∃ w' params',
     prepare w tail params false = (Return (base_url +:+ tail), w', params')
     ∧ _filters w' = []
     ∧ filters_merged (_filters w) params params')
  ∧ (∃ w' params',
     prepare w tail params true = (Return (base_url +:+ tail), w', params')
     ∧ _filters w' = _filters w
     ∧ filters_merged (_filters w) params params'
     ∧ ∀ tail2 params2 keep2, ∃ w'' params2',
         prepare w' tail2 params2 keep2
           = (Return (base_url +:+ tail2), w'', params2')
         ∧ _filters w'' = (if keep2 then _filters w else [])
         ∧ filters_merged (_filters w) params2 params2').
Proof.
  intros Hvalid. split.
  - destruct (prepare_valid_merged MD5.hexdigest w tail params false Hvalid)
      as (w' & params' & Heq & Hf & _ & Hm).
    exists w', params'. split; [exact Heq|]. split; [exact Hf | exact Hm].
  - destruct (prepare_valid_merged MD5.hexdigest w tail params true Hvalid)
      as (w' & params' & Heq & Hf & Hvalid' & Hm).
    exists w', params'. split; [exact Heq|]. split; [exact Hf|].
    split; [exact Hm|].
    intros tail2 params2 keep2.
    destruct (prepare_valid_merged MD5.hexdigest w' tail2 params2 keep2 Hvalid')
      as (w'' & params2' & Heq2 & Hf2 & _ & Hm2).
    exists w'', params2'. split; [exact Heq2|].
    rewrite Hf in Hf2, Hm2. split; [exact Hf2 | exact Hm2].
Qed.

Lemma prepare_clears_or_keeps_filters_witness :
  ∃ w' params',
    prepare (add_filter (SurveyGizmo bob) (PyStr "status") (PyStr "=") (PyStr "Launched"))
            "head/survey" {[ "page" := PyInt 2 ]} false
      = (Return (base_url +:+ "head/survey"), w', params')
    ∧ _filters w' = []
    ∧ params' !! "filter[field][0]" = Some (PyStr "status")
    ∧ params' !! "page" = Some (PyInt 2).
Proof.
  destruct (prepare_clears_or_keeps_filters
              (add_filter (SurveyGizmo bob) (PyStr "status") (PyStr "=") (PyStr "Launched"))
              "head/survey" {[ "page" := PyInt 2 ]} eq_refl)
    as [(w' & params' & Heq & Hf & Hm) _].
  exists w', params'. split; [exact Heq|]. split; [exact Hf|]. split.
  - destruct (Hm "filter[field][0]") as [_ Hlast]; [discriminate..|].
    apply (Hlast 0 (filter_entry 0 (PyStr "status", PyStr "=", PyStr "Launched"))).
    + reflexivity.
    + reflexivity.
    + intros [|j] e' He' Hlt; [lia | destruct j; discriminate He'].
  - destruct (Hm "page") as [Hkeep _]; [discriminate..|].
    rewrite Hkeep; [reflexivity|].
    intros [|j] e' He'; [|destruct j; discriminate He'].
    injection He' as <-. reflexivity.
Defined.

(** C8. With a valid user:pass configuration, [prepare] returns the url made
    of the fixed base url followed by [tail], and [params] is the merge of the
    accumulated filters with one more entry, keyed by the method name
    [user:pass] and holding the username, a colon and the password.  The
    wire is untouched: nothing is sent. *)
Theorem prepare_user_pass_entry
    (w : World) (tail : string) (params : gmap string PyVal) (keep : bool) :
  validate (_config w) = Return () →
  auth_method (_config w) = Some "user:pass" →
  ∃ u p w',
    username (_config w) = Some u ∧ password (_config w) = Some p
    ∧ prepare w tail params keep
      = (Return ("https://restapi.surveygizmo.com/" +:+ tail), w',
         <["user:pass" := PyStr (u +:+ ":" +:+ p)]>
           (merge_filters (_filters w) params))
    ∧ wire w' = wire w
    ∧ _config w' = _config w
    ∧ (_filters w = [] →
       (prepare w tail params keep).2
         = <["user:pass" := PyStr (u +:+ ":" +:+ p)]> params).
Proof.
  intros Hvalid Hauth.
  destruct (validate_user_pass _ Hvalid Hauth) as (u & p & Hu & Hp & _).
  exists u, p, (if negb keep then set_filters [] w else w).
  unfold prepare. rewrite prepare_user_pass by done. rewrite Hu, Hp. simpl.
  repeat split; try done; try by destruct keep.
  by intros ->.
Qed.

Lemma prepare_user_pass_entry_witness :
  ∃ w',
    prepare (SurveyGizmo alice) "head/survey" ∅ false
    = (Return "https://restapi.surveygizmo.com/head/survey", w',
       {[ "user:pass" := PyStr "alice:wonderland" ]})
    ∧ wire w' = [].
Proof.
  destruct (prepare_user_pass_entry (SurveyGizmo alice) "head/survey" ∅ false
              eq_refl eq_refl)
    as (u & p & w' & Hu & Hp & Heq & Hwire & _).
  injection Hu as <-. injection Hp as <-.
  exists w'. split; [exact Heq | exact Hwire].
Defined.

(** C2, as the code has it.  With a valid user:md5 configuration and no md5
    hash supplied, the first [prepare] stores the MD5 hex digest of the
    password on the configuration and sends it after the username.  From
    then on, whatever else has happened to the dispatcher, a [prepare] on that
    configuration leaves it as it is and sends the stored digest, and this
    whichever digest function it is given: the digest is not computed again.
    For the password [secret] the digest is
    [5ebe2294ecd0e0f08eab7690d2a6ee69]. *)
Theorem md5_hash_computed_once
    (w : World) (tail : string) (params : gmap string PyVal) (keep : bool) :
  validate (_config w) = Return () →
  auth_method (_config w) = Some "user:md5" →
  md5_hash (_config w) = None →
  ∃ pw w1 params1,
    password (_config w) = Some pw
    ∧ prepare w tail params keep = (Return (base_url +:+ tail), w1, params1)
    ∧ md5_hash (_config w1) = Some (MD5.hexdigest pw)
    ∧ params1 !! "user:md5"
      = Some (PyStr (fmt (username (_config w)) +:+ ":" +:+ MD5.hexdigest pw))
    ∧ (∀ digest w1' tail2 params2 keep2,
         _config w1' = _config w1 →
         ∃ w2 params2',
           prepare_with digest w1' tail2 params2 keep2
             = (Return (base_url +:+ tail2), w2, params2')
           ∧ _config w2 = _config w1
           ∧ params2' !! "user:md5"
             = Some (PyStr (fmt (username (_config w)) +:+ ":"
                            +:+ MD5.hexdigest pw)))
    ∧ MD5.hexdigest "secret" = "5ebe2294ecd0e0f08eab7690d2a6ee69".
Proof.
  intros Hvalid Hauth Hnone.
  assert (Hmd5 : truthy (md5_hash (_config w)) = false) by by rewrite Hnone.
  destruct (validate_user_md5 _ Hvalid Hauth Hmd5) as (pw & Hpw & _).
  exists pw. do 2 eexists. split; [done|].
  unfold prepare. rewrite (prepare_user_md5_computed _ _ _ _ _ Hvalid pw) by done.
  split; [done|]. split; [by destruct keep|].
  split; [by rewrite lookup_insert_eq|].
  split; [|by vm_compute].
  intros digest w1' tail2 params2 keep2 Hc.
  assert (Hc' : _config w1' = set_md5_hash (Some (MD5.hexdigest pw)) (_config w)).
  { rewrite Hc. by destruct keep. }
  assert (Hvalid' : validate (_config w1') = Return ()).
  { rewrite Hc'. by apply validate_set_md5_hash. }
  do 2 eexists.
  rewrite (prepare_user_md5_stored _ _ _ _ _ Hvalid').
  - split; [done|]. split.
    + rewrite <- Hc. by destruct keep2.
    + rewrite lookup_insert_eq, Hc'. done.
  - by rewrite Hc'.
  - rewrite Hc'. apply hexdigest_truthy.
Qed.

Lemma md5_hash_computed_once_witness :
  ∃ w1 params1,
    prepare (SurveyGizmo bob) "head/survey" ∅ false
      = (Return (base_url +:+ "head/survey"), w1, params1)
    ∧ md5_hash (_config w1) = Some "5ebe2294ecd0e0f08eab7690d2a6ee69"
    ∧ params1 !! "user:md5" = Some (PyStr "bob:5ebe2294ecd0e0f08eab7690d2a6ee69").
Proof.
  destruct (md5_hash_computed_once (SurveyGizmo bob) "head/survey" ∅ false
              eq_refl eq_refl eq_refl)
    as (pw & w1 & params1 & Hpw & Heq & Hh & Hp & _ & Hsecret).
  injection Hpw as <-. rewrite Hsecret in Hh, Hp.
  exists w1, params1. split; [exact Heq|]. split; [exact Hh | exact Hp].
Defined.

(** C2 as stated fails: for the password [secret] the hash that the first
    [prepare] stores is not [5ebe2294ecd0e0f08eaf25572d5d12dd]. *)
Lemma md5_of_secret_is_not_as_stated :
  validate bob = Return ()
  ∧ auth_method bob = Some "user:md5"
  ∧ md5_hash bob = None
  ∧ password bob = Some "secret"
  ∧ md5_hash (_config (prepare (SurveyGizmo bob) "head/survey" ∅ false).1.2)
    ≠ Some "5ebe2294ecd0e0f08eaf25572d5d12dd".
Proof.
  repeat split. vm_compute. discriminate.
Qed.

(** ** Attribute lookup and the wrapper *)

(** Every call of [__getattr__] ends in [RuntimeError]. *)
Lemma getattr_exhausts (depth : nat) (name : string) :
  __getattr__ depth name = Raise (RuntimeError "maximum recursion depth exceeded").
Proof.
  revert name. induction depth as [|d IH]; intros name; simpl; [done|].
  by rewrite IH.
Qed.

(** C9, as the code has it.  Looking up a name that is not an attribute of
    the dispatcher never ends in [AttributeError]: [__getattr__] calls itself
    for [_modules] until the interpreter is out of frames, and the call ends
    in [RuntimeError], whatever the name and however deep the stack. *)
Theorem getattr_undefined_name_exhausts_stack (depth : nat) (name : string) :
  __getattr__ depth name = Raise (RuntimeError "maximum recursion depth exceeded")
  ∧ __getattr__ depth name ≠ Raise (AttributeError name).
Proof.
  rewrite getattr_exhausts. split; [done | discriminate].
Qed.

(** C5, as the code has it.  Once the resource callable has returned, the
    wrapper reads [self._sg], which is no attribute of the dispatcher, and the
    call ends in [RuntimeError] with the dispatcher and the wire untouched:
    with [url_fetch=True] no prepared pair is returned.  The callable is given
    the keyword arguments without [keep] and [url_fetch]. *)
Theorem wrapper_fails_before_prepare
    (transport : Transport) (depth : nat) (func : Resource)
    (w : World) (args : list PyVal) (kwargs : gmap string PyVal) :
  _wrap transport depth func w args kwargs
  = match func args (delete "url_fetch" (delete "keep" kwargs)) with
    | Raise e => (Raise e, w)
    | Return _ => (Raise (RuntimeError "maximum recursion depth exceeded"), w)
    end.
Proof.
  unfold _wrap, pop.
  destruct (func args _) as [[tail params]|e]; [|done].
  rewrite (getattr_exhausts depth "_sg"). reflexivity.
Qed.

(** ** Execution *)

(** The request that [execute] sends and the dispatcher it leaves: through
    the session, created on first use, under oauth, and plain otherwise. *)
Lemma execute_request (transport : Transport) (w : World) (url : string)
    (params : gmap string PyVal) :
  ∃ request w',
    req_url request = url ∧ req_params request = params
    ∧ req_kwargs request = requests_kwargs (_config w)
    ∧ wire w' = (wire w ++ [request])%list
    ∧ _config w' = _config w ∧ _filters w' = _filters w
    ∧ execute transport w url params
      = match transport (wire w) request with
        | Raise e => (Raise e, w')
        | Return response =>
            match raise_for_status response with
            | Raise e => (Raise e, w')
            | Return _ =>
                if negb (truthy (response_type (_config w)))
                then (j ← json response; Return (Decoded j), w')
                else (Return (RawText (text response)), w')
            end
        end.
Proof.
  unfold execute.
  destruct (decide (auth_method (_config w) = Some "oauth")).
  - destruct (_session w) as [s|] eqn:Hs; simpl; rewrite ?Hs.
    + by exists (Build_Request (Some s) url params (requests_kwargs (_config w))),
        (send (Build_Request (Some s) url params (requests_kwargs (_config w))) w).
    + set (s := get_session _ _ _ _).
      by exists (Build_Request (Some s) url params (requests_kwargs (_config w))),
        (send (Build_Request (Some s) url params (requests_kwargs (_config w)))
              (set_session (Some s) w)).
  - by exists (Build_Request None url params (requests_kwargs (_config w))),
      (send (Build_Request None url params (requests_kwargs (_config w))) w).
Qed.

(** C6, as the code has it.  For a response that the transport returns
    and that passes [raise_for_status], [execute] hands back what [.json()]
    gives when the response type is unset or the empty string, and the text
    of the response, unmodified, when the response type is a non-empty
    string.  With the response type unset and a body that decodes to the
    mapping of [result] to 1 it returns that mapping; with the response type
    [xml] it returns the body text. *)
Theorem execute_decodes_unless_response_type :
  (∀ (transport : Transport) (w : World) (url : string)
     (params : gmap string PyVal),
     ∃ request w',
       req_url request = url ∧ req_params request = params
       ∧ wire w' = (wire w ++ [request])%list
       ∧ ∀ r,
           transport (wire w) request = Return r →
           raise_for_status r = Return () →
           (empty (response_type (_config w)) →
              execute transport w url params
                = (j ← json r; Return (Decoded j), w'))
           ∧ (¬ empty (response_type (_config w)) →
              execute transport w url params = (Return (RawText (text r)), w')))
  ∧ (execute (stub ok_response) (SurveyGizmo alice) "u" ∅).1
    = Return (Decoded (JDict [("result", JInt 1)]))
  ∧ (execute (stub ok_response)
       (SurveyGizmo (with_response_type (Some "xml") alice)) "u" ∅).1
    = Return (RawText result_1).
Proof.
  split; [|by vm_compute].
  intros transport w url params.
  destruct (execute_request transport w url params)
    as (request & w' & Hurl & Hparams & _ & Hwire & _ & _ & Heq).
  exists request, w'. do 3 (split; [assumption|]).
  intros r Hr Hok. rewrite Heq, Hr, Hok.
  split; intros Hrt.
  - apply truthy_false in Hrt. by rewrite Hrt.
  - apply truthy_true in Hrt. by rewrite Hrt.
Qed.

(** C6 as stated fails: with the response type set to the empty string,
    [execute] decodes the body of a successful response instead of returning
    its text. *)
Lemma execute_empty_response_type_decodes :
  response_type (with_response_type (Some EmptyString) alice) = Some EmptyString
  ∧ stub ok_response [] (Build_Request None "u" ∅ ∅) = Return ok_response
  ∧ raise_for_status ok_response = Return ()
  ∧ (execute (stub ok_response)
       (SurveyGizmo (with_response_type (Some EmptyString) alice)) "u" ∅).1
    = Return (Decoded (JDict [("result", JInt 1)]))
  ∧ (execute (stub ok_response)
       (SurveyGizmo (with_response_type (Some EmptyString) alice)) "u" ∅).1
    ≠ Return (RawText (text ok_response)).
Proof.
  repeat split. vm_compute. discriminate.
Qed.

(** What [raise_for_status] does on a response of [requests]. *)
Lemma requests_raise_for_status (status : Z) (body : string) (decoded : Result Json) :
  ((400 ≤ status < 600)%Z →
     raise_for_status (requests_response status body decoded)
       = Raise (HTTPError status body))
  ∧ (¬ (400 ≤ status < 600)%Z →
     raise_for_status (requests_response status body decoded) = Return ()).
Proof.
  simpl. split.
  - intros [Hlo Hhi]. apply Z.leb_le in Hlo. apply Z.ltb_lt in Hhi.
    rewrite Hlo, Hhi. reflexivity.
  - intros Hout. destruct (400 <=? status)%Z eqn:Hlo; [|reflexivity].
    destruct (status <? 600)%Z eqn:Hhi; [|reflexivity].
    apply Z.leb_le in Hlo. apply Z.ltb_lt in Hhi. lia.
Qed.

(** C7, as the code has it.  [execute] raises what [raise_for_status]
    raises and catches nothing.  For a response of [requests] that is
    [HTTPError], with the status and the body, at every 4xx and 5xx status,
    so a 500 makes [execute] raise and return nothing; at every other
    status, a 3xx included, [execute] hands back the body like that of a
    success.  An error of the transport itself is raised likewise. *)
Theorem execute_raises_at_4xx_5xx :
  (∀ (transport : Transport) (w : World) (url : string)
     (params : gmap string PyVal),
     ∃ request w',
       req_url request = url ∧ req_params request = params
       ∧ wire w' = (wire w ++ [request])%list
       ∧ (∀ status body decoded,
           transport (wire w) request
             = Return (requests_response status body decoded) →
           ((400 ≤ status < 600)%Z →
              execute transport w url params
                = (Raise (HTTPError status body), w'))
           ∧ (¬ (400 ≤ status < 600)%Z →
              execute transport w url params
                = (if truthy (response_type (_config w))
                   then Return (RawText body)
                   else j ← decoded; Return (Decoded j),
                   w')))
       ∧ (∀ r e,
           transport (wire w) request = Return r →
           raise_for_status r = Raise e →
           execute transport w url params = (Raise e, w'))
       ∧ (∀ e,
           transport (wire w) request = Raise e →
           execute transport w url params = (Raise e, w')))
  ∧ (execute (stub error_response) (SurveyGizmo alice) "u" ∅).1
    = Raise (HTTPError 500 "Internal Server Error").
Proof.
  split; [|by vm_compute].
  intros transport w url params.
  destruct (execute_request transport w url params)
    as (request & w' & Hurl & Hparams & _ & Hwire & _ & _ & Heq).
  exists request, w'. do 3 (split; [assumption|]).
  split; [|split].
  - intros status body decoded Hr.
    destruct (requests_raise_for_status status body decoded) as [Hin Hout].
    split.
    + intros Hs. rewrite Heq, Hr, (Hin Hs). reflexivity.
    + intros Hs. rewrite Heq, Hr, (Hout Hs).
      destruct (truthy (response_type (_config w))); reflexivity.
  - intros r e Hr He. rewrite Heq, Hr, He. reflexivity.
  - intros e He. rewrite Heq, He. reflexivity.
Qed.

(** C7 as stated fails: 302 is not a success status, yet [execute] returns
    the body of such a response instead of raising. *)
Lemma execute_returns_at_redirect_status :
  status_code redirect_response = 302%Z
  ∧ stub redirect_response [] (Build_Request None "u" ∅ ∅)
    = Return redirect_response
  ∧ (execute (stub redirect_response)
       (SurveyGizmo (with_response_type (Some "xml") alice)) "u" ∅).1
    = Return (RawText "moved").
Proof.
  repeat split.
Qed.

(** ** Further properties of [prepare] *)

(** The filters' share of a merge does not depend on the caller's
    [params]. *)
Lemma merge_filters_union (fs : list (gmap string PyVal))
    (params : gmap string PyVal) :
  merge_filters fs params = merge_filters fs ∅ ∪ params.
Proof.
  revert params. induction fs as [|e fs IH]; intros params.
  - simpl. by rewrite (left_id_L ∅ (∪)).
  - change (merge_filters (e :: fs) params) with (merge_filters fs (e ∪ params)).
    change (merge_filters (e :: fs) ∅) with (merge_filters fs (e ∪ ∅)).
    rewrite (IH (e ∪ params)), (IH (e ∪ ∅)).
    rewrite (right_id_L ∅ (∪)). by rewrite (assoc_L (∪)).
Qed.

Lemma merge_filters_idem (fs : list (gmap string PyVal))
    (params : gmap string PyVal) :
  merge_filters fs (merge_filters fs params) = merge_filters fs params.
Proof.
  rewrite (merge_filters_union fs (merge_filters fs params)).
  rewrite (merge_filters_union fs params).
  rewrite (assoc_L (∪)). by rewrite (idemp_L (∪)).
Qed.

Lemma merge_filters_insert_idem (fs : list (gmap string PyVal))
    (params : gmap string PyVal) (a : string) (v : PyVal) :
  <[a := v]> (merge_filters fs (<[a := v]> (merge_filters fs params)))
  = <[a := v]> (merge_filters fs params).
Proof.
  apply map_eq. intros k. destruct (decide (a = k)) as [->|Hne].
  - by rewrite !lookup_insert_eq.
  - rewrite !lookup_insert_ne by assumption.
    rewrite (merge_filters_union fs (<[a := v]> _)).
    rewrite (merge_filters_union fs params).
    destruct (merge_filters fs ∅ !! k) as [x|] eqn:Hk.
    + rewrite (lookup_union_Some_l _ _ _ _ Hk).
      by rewrite (lookup_union_Some_l _ _ _ _ Hk).
    + rewrite lookup_union_r by assumption.
      rewrite lookup_insert_ne by assumption. reflexivity.
Qed.

Lemma set_md5_hash_same (c : Config) : set_md5_hash (md5_hash c) c = c.
Proof. by destruct c. Qed.

(** X1. With credentials that are byte strings or unset, as [Config] has
    them, [prepare] returns or raises [ImproperlyConfigured]: a configuration
    that [validate] accepts always gets its url and [params], the digest of
    a missing password is never asked for, and when [prepare] raises, the
    dispatcher and [params] are as they were. *)
Theorem prepare_raises_only_improperly_configured
    (digest : string → string) (w : World) (tail : string)
    (params : gmap string PyVal) (keep : bool) :
  (∃ w' params',
     prepare_with digest w tail params keep
       = (Return (base_url +:+ tail), w', params'))
  ∨ (∃ msg,
       prepare_with digest w tail params keep
         = (Raise (ImproperlyConfigured msg), w, params)).
Proof.
  destruct (validate_cases (_config w)) as [Hok|[msg Hbad]].
  - left.
    destruct (prepare_valid digest w tail params keep Hok)
      as (w' & params' & Heq & _).
    exists w', params'. exact Heq.
  - right. exists msg. unfold prepare_with. rewrite Hbad. reflexivity.
Qed.

(** X2. Whatever the configuration, [prepare] sends nothing and creates no
    session, leaves the filter list as it was or empty, and changes nothing
    of the configuration but its md5 hash. *)
Theorem prepare_frame
    (digest : string → string) (w : World) (tail : string)
    (params : gmap string PyVal) (keep : bool) :
  wire (prepare_with digest w tail params keep).1.2 = wire w
  ∧ _session (prepare_with digest w tail params keep).1.2 = _session w
  ∧ (_filters (prepare_with digest w tail params keep).1.2 = _filters w
     ∨ _filters (prepare_with digest w tail params keep).1.2 = [])
  ∧ set_md5_hash (md5_hash (_config (prepare_with digest w tail params keep).1.2))
                 (_config w)
    = _config (prepare_with digest w tail params keep).1.2.
Proof.
  destruct (validate_cases (_config w)) as [Hok|[msg Hbad]].
  - destruct (valid_auth_method digest w tail Hok) as [Hauth|[Hauth|Hauth]].
    + rewrite (prepare_user_pass digest w tail params keep Hok Hauth). simpl.
      destruct keep; simpl; repeat split; auto using set_md5_hash_same.
    + destruct (truthy (md5_hash (_config w))) eqn:Hmd5.
      * rewrite (prepare_user_md5_stored digest w tail params keep Hok Hauth Hmd5).
        simpl. destruct keep; simpl; repeat split; auto using set_md5_hash_same.
      * destruct (validate_user_md5 _ Hok Hauth Hmd5) as (pw & Hpw & _).
        rewrite (prepare_user_md5_computed digest w tail params keep Hok pw
                   Hauth Hmd5 Hpw).
        simpl. destruct keep; simpl; repeat split; auto.
    + rewrite (prepare_oauth digest w tail params keep Hok Hauth). simpl.
      destruct keep; simpl; repeat split; auto using set_md5_hash_same.
  - unfold prepare_with. rewrite Hbad. simpl.
    repeat split; auto using set_md5_hash_same.
Qed.

(** X3. With a valid configuration, a key of the caller's [params] that is
    in no accumulated filter and is not an authentication key keeps its
    value, and no such key is added. *)
Theorem prepare_keeps_other_params
    (w : World) (tail : string) (params : gmap string PyVal) (keep : bool)
    (k : string) :
  validate (_config w) = Return () →
  k ≠ "user:pass" → k ≠ "user:md5" →
  (∀ j e, _filters w !! j = Some e → e !! k = None) →
  (prepare w tail params keep).2 !! k = params !! k.
Proof.
  intros Hok Hk1 Hk2 Hfs.
  destruct (prepare_valid MD5.hexdigest w tail params keep Hok)
    as (w' & params' & Heq & _ & _ & _ & _ & Hp).
  unfold prepare. rewrite Heq. simpl.
  rewrite (Hp k Hk1 Hk2). by apply merge_filters_absent.
Qed.

Lemma prepare_keeps_other_params_witness :
  (prepare (add_filter (SurveyGizmo alice) (PyStr "status") (PyStr "=") (PyStr "Launched"))
           "head/survey" {[ "page" := PyInt 2 ]} false).2 !! "page"
  = Some (PyInt 2).
Proof.
  rewrite (prepare_keeps_other_params
             (add_filter (SurveyGizmo alice) (PyStr "status") (PyStr "=") (PyStr "Launched"))
             "head/survey" {[ "page" := PyInt 2 ]} false "page" eq_refl).
  - reflexivity.
  - discriminate.
  - discriminate.
  - intros [|j] e He; [|destruct j; discriminate He].
    injection He as <-. reflexivity.
Defined.

(** X4. With a valid configuration, a key held by the most recently added
    filter comes out of [prepare] with that filter's value, whatever earlier
    filters or the caller's [params] hold for it. *)
Theorem prepare_last_filter_wins
    (w : World) (tail : string) (params : gmap string PyVal) (keep : bool)
    (fs : list (gmap string PyVal)) (f : gmap string PyVal)
    (k : string) (v : PyVal) :
  validate (_config w) = Return () →
  k ≠ "user:pass" → k ≠ "user:md5" →
  _filters w = (fs ++ [f])%list → f !! k = Some v →
  (prepare w tail params keep).2 !! k = Some v.
Proof.
  intros Hok Hk1 Hk2 Hfs Hv.
  destruct (prepare_valid MD5.hexdigest w tail params keep Hok)
    as (w' & params' & Heq & _ & _ & _ & _ & Hp).
  unfold prepare. rewrite Heq. simpl.
  rewrite (Hp k Hk1 Hk2), Hfs. unfold merge_filters.
  rewrite foldl_app. simpl. by apply lookup_union_Some_l.
Qed.

Lemma prepare_last_filter_wins_witness :
  (prepare (set_filters [ {[ "page" := PyInt 1 ]}; {[ "page" := PyInt 7 ]} ]
                        (SurveyGizmo alice))
           "head/survey" {[ "page" := PyInt 2 ]} false).2 !! "page"
  = Some (PyInt 7).
Proof.
  apply (prepare_last_filter_wins
           (set_filters [ {[ "page" := PyInt 1 ]}; {[ "page" := PyInt 7 ]} ]
                        (SurveyGizmo alice))
           "head/survey" {[ "page" := PyInt 2 ]} false
           [ {[ "page" := PyInt 1 ]} ] {[ "page" := PyInt 7 ]} "page" (PyInt 7)).
  - reflexivity.
  - discriminate.
  - discriminate.
  - reflexivity.
  - reflexivity.
Defined.

(** X5. Numbering follows the filter list: after a [prepare] that cleared
    the filters the next [add_filter] is numbered 0 again, and after a
    [prepare] with [keep=True] it is numbered after the filters kept. *)
Theorem add_filter_numbering_after_prepare
    (w : World) (tail : string) (params : gmap string PyVal)
    (field operator value : PyVal) :
  validate (_config w) = Return () →
  _filters (add_filter (prepare w tail params false).1.2 field operator value)
    = [filter_entry 0 (field, operator, value)]
  ∧ _filters (add_filter (prepare w tail params true).1.2 field operator value)
    = (_filters w
       ++ [filter_entry (length (_filters w)) (field, operator, value)])%list.
Proof.
  intros Hok. split.
  - destruct (prepare_valid MD5.hexdigest w tail params false Hok)
      as (w' & params' & Heq & Hf & _).
    unfold prepare. rewrite Heq. simpl. rewrite Hf. reflexivity.
  - destruct (prepare_valid MD5.hexdigest w tail params true Hok)
      as (w' & params' & Heq & Hf & _).
    unfold prepare. rewrite Heq. simpl. rewrite Hf. reflexivity.
Qed.

Lemma add_filter_numbering_after_prepare_witness :
  ∃ entry,
    _filters (add_filter
                (prepare (add_filter (SurveyGizmo alice)
                            (PyStr "status") (PyStr "=") (PyStr "Launched"))
                         "head/survey" ∅ false).1.2
                (PyStr "title") (PyStr "=") (PyStr "Poll"))
      = [entry]
    ∧ entry !! "filter[field][0]" = Some (PyStr "title").
Proof.
  destruct (add_filter_numbering_after_prepare
              (add_filter (SurveyGizmo alice)
                 (PyStr "status") (PyStr "=") (PyStr "Launched"))
              "head/survey" ∅ (PyStr "title") (PyStr "=") (PyStr "Poll") eq_refl)
    as [Hcleared _].
  exists (filter_entry 0 (PyStr "title", PyStr "=", PyStr "Poll")).
  split; [exact Hcleared | reflexivity].
Defined.

(** X6. With a valid configuration, a second [prepare] with [keep=True] on
    what the first one handed back changes nothing: same url, same
    dispatcher, same [params]. *)
Theorem prepare_keep_twice
    (w : World) (tail : string) (params : gmap string PyVal) :
  validate (_config w) = Return () →
  prepare (prepare w tail params true).1.2 tail
          (prepare w tail params true).2 true
  = prepare w tail params true.
Proof.
  intros Hok. unfold prepare.
  destruct (valid_auth_method MD5.hexdigest w tail Hok) as [Hauth|[Hauth|Hauth]].
  - rewrite (prepare_user_pass MD5.hexdigest w tail params true Hok Hauth). simpl.
    rewrite (prepare_user_pass MD5.hexdigest w tail _ true Hok Hauth). simpl.
    by rewrite merge_filters_insert_idem.
  - destruct (truthy (md5_hash (_config w))) eqn:Hmd5.
    + rewrite (prepare_user_md5_stored MD5.hexdigest w tail params true Hok Hauth Hmd5).
      simpl.
      rewrite (prepare_user_md5_stored MD5.hexdigest w tail _ true Hok Hauth Hmd5).
      simpl. by rewrite merge_filters_insert_idem.
    + destruct (validate_user_md5 _ Hok Hauth Hmd5) as (pw & Hpw & _).
      rewrite (prepare_user_md5_computed MD5.hexdigest w tail params true Hok pw
                 Hauth Hmd5 Hpw).
      simpl.
      rewrite (prepare_user_md5_stored MD5.hexdigest
                 (set_config (set_md5_hash (Some (MD5.hexdigest pw)) (_config w)) w)
                 tail _ true).
      * simpl. by rewrite merge_filters_insert_idem.
      * simpl. by apply validate_set_md5_hash.
      * exact Hauth.
      * apply hexdigest_truthy.
  - rewrite (prepare_oauth MD5.hexdigest w tail params true Hok Hauth). simpl.
    rewrite (prepare_oauth MD5.hexdigest w tail _ true Hok Hauth). simpl.
    by rewrite merge_filters_idem.
Qed.

Lemma prepare_keep_twice_witness :
  prepare (prepare (add_filter (SurveyGizmo bob)
                      (PyStr "status") (PyStr "=") (PyStr "Launched"))
                   "head/survey" {[ "page" := PyInt 2 ]} true).1.2
          "head/survey"
          (prepare (add_filter (SurveyGizmo bob)
                      (PyStr "status") (PyStr "=") (PyStr "Launched"))
                   "head/survey" {[ "page" := PyInt 2 ]} true).2
          true
  = prepare (add_filter (SurveyGizmo bob)
               (PyStr "status") (PyStr "=") (PyStr "Launched"))
            "head/survey" {[ "page" := PyInt 2 ]} true.
Proof.
  apply (prepare_keep_twice
           (add_filter (SurveyGizmo bob)
              (PyStr "status") (PyStr "=") (PyStr "Launched"))
           "head/survey" {[ "page" := PyInt 2 ]}).
  reflexivity.
Defined.

(** X7. With a valid user:md5 configuration that holds an md5 hash, [prepare]
    sends the username and that hash, whatever the password is and whichever
    digest function it is given, and leaves the configuration as it is. *)
Theorem prepare_supplied_md5_hash_used
    (digest : string → string) (w : World) (tail : string)
    (params : gmap string PyVal) (keep : bool) (h : string) :
  validate (_config w) = Return () →
  auth_method (_config w) = Some "user:md5" →
  md5_hash (_config w) = Some h → h ≠ EmptyString →
  (prepare_with digest w tail params keep).2 !! "user:md5"
    = Some (PyStr (fmt (username (_config w)) +:+ ":" +:+ h))
  ∧ _config (prepare_with digest w tail params keep).1.2 = _config w.
Proof.
  intros Hok Hauth Hh Hne.
  assert (Hmd5 : truthy (md5_hash (_config w)) = true).
  { rewrite Hh. destruct h; [congruence | reflexivity]. }
  rewrite (prepare_user_md5_stored digest w tail params keep Hok Hauth Hmd5).
  simpl. rewrite Hh. simpl. split.
  - apply lookup_insert_eq.
  - by destruct keep.
Qed.

Lemma prepare_supplied_md5_hash_used_witness :
  (prepare (SurveyGizmo dave) "head/survey" ∅ false).2 !! "user:md5"
  = Some (PyStr "dave:0123456789abcdef0123456789abcdef").
Proof.
  destruct (prepare_supplied_md5_hash_used MD5.hexdigest (SurveyGizmo dave)
              "head/survey" ∅ false "0123456789abcdef0123456789abcdef"
              eq_refl eq_refl eq_refl)
    as [Hentry _].
  - discriminate.
  - exact Hentry.
Defined.

(** X8. With a valid oauth configuration [prepare] puts no credential into
    [params]: they are the merged filters and nothing more. *)
Theorem prepare_oauth_adds_no_credentials
    (w : World) (tail : string) (params : gmap string PyVal) (keep : bool) :
  validate (_config w) = Return () →
  auth_method (_config w) = Some "oauth" →
  (prepare w tail params keep).2 = merge_filters (_filters w) params
  ∧ (_filters w = [] → (prepare w tail params keep).2 = params).
Proof.
  intros Hok Hauth. unfold prepare.
  rewrite (prepare_oauth MD5.hexdigest w tail params keep Hok Hauth). simpl.
  split; [reflexivity|]. intros Hf. rewrite Hf. reflexivity.
Qed.

Lemma prepare_oauth_adds_no_credentials_witness :
  (prepare (SurveyGizmo carol) "head/survey" {[ "page" := PyInt 2 ]} false).2
  = {[ "page" := PyInt 2 ]}.
Proof.
  destruct (prepare_oauth_adds_no_credentials (SurveyGizmo carol) "head/survey"
              {[ "page" := PyInt 2 ]} false eq_refl eq_refl)
    as [_ Hsame].
  exact (Hsame eq_refl).
Defined.

(** ** Further properties of [execute] *)

(** X9. Under oauth, [execute] uses the session the dispatcher already
    holds, whatever credentials the configuration has by then, and builds one
    from the four credentials only when it holds none; either way the
    dispatcher holds that session afterwards.  When the configured keyword
    arguments name neither [params] nor [url], the one call that goes out goes
    through that session. *)
Theorem execute_oauth_session_created_once
    (transport : Transport) (w : World) (url : string)
    (params : gmap string PyVal) :
  auth_method (_config w) = Some "oauth" →
  ∃ s,
    s = default (get_session (consumer_key (_config w))
                             (consumer_secret (_config w))
                             (access_token (_config w))
                             (access_token_secret (_config w)))
                (_session w)
    ∧ _session (execute transport w url params).2 = Some s
    ∧ (requests_kwargs (_config w) !! "params" = None →
       requests_kwargs (_config w) !! "url" = None →
       wire (execute transport w url params).2
       = (wire w ++ [Build_Request (Some s) url params
                       (requests_kwargs (_config w))])%list).
Proof.
  intros Hauth. eexists. split; [reflexivity|].
  unfold execute. rewrite (decide_True _ _ Hauth).
  destruct (_session w) as [s|] eqn:Hs; simpl; rewrite ?Hs; simpl.
  - destruct (transport _ _) as [r|e]; [|by split].
    destruct (raise_for_status r); [|by split].
    destruct (negb _); by split.
  - destruct (transport _ _) as [r|e]; [|by split].
    destruct (raise_for_status r); [|by split].
    destruct (negb _); by split.
Qed.

Lemma execute_oauth_session_created_once_witness :
  _session (execute (stub ok_response)
              (execute (stub ok_response) (SurveyGizmo carol) "u" ∅).2 "v" ∅).2
  = Some (get_session (Some "ck") (Some "cs") (Some "tok") (Some "toksec")).
Proof.
  destruct (execute_oauth_session_created_once (stub ok_response)
              (execute (stub ok_response) (SurveyGizmo carol) "u" ∅).2 "v" ∅
              eq_refl)
    as (s & Hs & Hsession & _).
  rewrite Hsession, Hs. reflexivity.
Defined.

(** Outside oauth the request is a plain one and the session stays. *)
Lemma execute_plain (transport : Transport) (w : World) (url : string)
    (params : gmap string PyVal) :
  auth_method (_config w) ≠ Some "oauth" →
  _session (execute transport w url params).2 = _session w
  ∧ wire (execute transport w url params).2
    = (wire w ++ [Build_Request None url params
                    (requests_kwargs (_config w))])%list.
Proof.
  intros Hauth. unfold execute. rewrite (decide_False _ _ Hauth).
  destruct (transport _ _) as [r|e]; [|by split].
  destruct (raise_for_status r); [|by split].
  destruct (negb _); by split.
Qed.

(** X10. [execute] does not validate.  With any authentication method other
    than oauth, an unset or unrecognised one included, and keyword arguments
    that name neither [params] nor [url], it makes a plain call with the url
    and [params] it was given and leaves the session as it is. *)
Theorem execute_plain_without_validation
    (transport : Transport) (w : World) (url : string)
    (params : gmap string PyVal) :
  auth_method (_config w) ≠ Some "oauth" →
  requests_kwargs (_config w) !! "params" = None →
  requests_kwargs (_config w) !! "url" = None →
  _session (execute transport w url params).2 = _session w
  ∧ wire (execute transport w url params).2
    = (wire w ++ [Build_Request None url params
                    (requests_kwargs (_config w))])%list.
Proof.
  intros Hauth _ _. split.
  - apply (execute_plain transport w url params Hauth).
  - apply (execute_plain transport w url params Hauth).
Qed.

Lemma execute_plain_without_validation_witness :
  validate default_config = Raise (ImproperlyConfigured "No authentication method provided.")
  ∧ wire (execute (stub ok_response) (SurveyGizmo default_config) "u" ∅).2
    = [Build_Request None "u" ∅ ∅].
Proof.
  split; [reflexivity|].
  destruct (execute_plain_without_validation (stub ok_response)
              (SurveyGizmo default_config) "u" ∅)
    as [_ Hwire].
  - discriminate.
  - reflexivity.
  - reflexivity.
  - exact Hwire.
Defined.

(** X11. With keyword arguments that name neither [params] nor [url], every
    call of [execute] makes exactly one call of the transport, whatever comes
    back, with the url, the [params] and the configured keyword arguments; it
    leaves the configuration and the accumulated filters as they are. *)
Theorem execute_sends_one_request
    (transport : Transport) (w : World) (url : string)
    (params : gmap string PyVal) :
  requests_kwargs (_config w) !! "params" = None →
  requests_kwargs (_config w) !! "url" = None →
  ∃ request,
    wire (execute transport w url params).2 = (wire w ++ [request])%list
    ∧ req_url request = url
    ∧ req_params request = params
    ∧ req_kwargs request = requests_kwargs (_config w)
    ∧ _config (execute transport w url params).2 = _config w
    ∧ _filters (execute transport w url params).2 = _filters w.
Proof.
  intros _ _.
  destruct (execute_request transport w url params)
    as (request & w' & Hurl & Hparams & Hkw & Hwire & Hc & Hf & Heq).
  exists request.
  assert (Hw : (execute transport w url params).2 = w').
  { rewrite Heq. destruct (transport _ _) as [r|e]; [|reflexivity].
    destruct (raise_for_status r); [|reflexivity].
    destruct (negb _); reflexivity. }
  rewrite Hw. repeat split; assumption.
Qed.

Lemma execute_sends_one_request_witness :
  ∃ request,
    wire (execute (stub error_response) (SurveyGizmo carol) "u"
            {[ "page" := PyInt 2 ]}).2 = [request]
    ∧ req_url request = "u"
    ∧ req_params request = {[ "page" := PyInt 2 ]}
    ∧ req_kwargs request = {[ "timeout" := PyInt 30 ]}.
Proof.
  destruct (execute_sends_one_request (stub error_response) (SurveyGizmo carol)
              "u" {[ "page" := PyInt 2 ]} eq_refl eq_refl)
    as (request & Hwire & Hurl & Hparams & Hkw & _).
  exists request. split; [exact Hwire|]. split; [exact Hurl|].
  split; [exact Hparams | exact Hkw].
Defined.



(** X13. [prepare] and [execute] in sequence, with a valid user:pass
    configuration whose keyword arguments name neither [params] nor [url]:
    the one call that goes out is a plain one, to the base url followed by
    [tail], carrying the merged filters and the credentials entry. *)
Theorem prepare_then_execute_user_pass
    (transport : Transport) (w : World) (tail : string)
    (params : gmap string PyVal) (keep : bool) :
  validate (_config w) = Return () →
  auth_method (_config w) = Some "user:pass" →
  requests_kwargs (_config w) !! "params" = None →
  requests_kwargs (_config w) !! "url" = None →
  wire (execute transport (prepare w tail params keep).1.2
          (base_url +:+ tail) (prepare w tail params keep).2).2
  = (wire w
     ++ [Build_Request None (base_url +:+ tail)
           (<["user:pass" := PyStr (fmt (username (_config w)) +:+ ":"
                                    +:+ fmt (password (_config w)))]>
              (merge_filters (_filters w) params))
           (requests_kwargs (_config w))])%list.
Proof.
  intros Hok Hauth _ _. unfold prepare.
  rewrite (prepare_user_pass MD5.hexdigest w tail params keep Hok Hauth). simpl.
  assert (Hc : _config (if negb keep then set_filters [] w else w) = _config w)
    by by destruct keep.
  assert (Hwire : wire (if negb keep then set_filters [] w else w) = wire w)
    by by destruct keep.
  destruct (execute_plain transport
              (if negb keep then set_filters [] w else w)
              (base_url +:+ tail)
              (<["user:pass" := PyStr (fmt (username (_config w)) +:+ ":"
                                       +:+ fmt (password (_config w)))]>
                 (merge_filters (_filters w) params)))
    as [_ Hsent].
  - rewrite Hc, Hauth. discriminate.
  - rewrite Hsent, Hc, Hwire. reflexivity.
Qed.

Lemma prepare_then_execute_user_pass_witness :
  wire (execute (stub ok_response)
          (prepare (SurveyGizmo alice) "head/survey" ∅ false).1.2
          (base_url +:+ "head/survey")
          (prepare (SurveyGizmo alice) "head/survey" ∅ false).2).2
  = [Build_Request None "https://restapi.surveygizmo.com/head/survey"
       {[ "user:pass" := PyStr "alice:wonderland" ]} ∅].
Proof.
  apply (prepare_then_execute_user_pass (stub ok_response) (SurveyGizmo alice)
           "head/survey" ∅ false eq_refl eq_refl eq_refl eq_refl).
Defined.

(** ** Further properties of [validate] and [add_filter] *)

(** X14. [validate] checks the authentication fields first: the error
    without a message, the one for the response type, is raised exactly when
    the authentication method and its fields pass and the response type is
    set to something other than json, pson, xml or debug. *)
Theorem validate_response_type_error_last (c : Config) :
  validate c = Raise (ImproperlyConfigured EmptyString)
  ↔ ¬ auth_rejects c
    ∧ ∃ v, response_type c = Some v ∧ v ∉ ["json"; "pson"; "xml"; "debug"].
Proof.
  rewrite <- response_type_listed.
  unfold validate, mbind, Result_bind, auth_rejects.
  destruct (bool_decide (response_type c ∈ _)); simpl.
  all: destruct (bool_decide (auth_method c ∈ _)) eqn:Eauth; simpl.
  all: try apply bool_decide_eq_true in Eauth; try apply bool_decide_eq_false in Eauth.
  all: rewrite ?elem_of_cons, ?elem_of_nil in Eauth.
  all: repeat case_decide; simpl.
  all: repeat match goal with
       | |- context [negb (truthy ?o)] =>
           let E := fresh "E" in destruct (truthy o) eqn:E;
           [apply truthy_true in E | apply truthy_false in E]; simpl
       end.
  all: match goal with
       | |- Raise (ImproperlyConfigured EmptyString) = Raise _ ↔ _ =>
           split; [intros _ | reflexivity]
       | |- _ =>
           split; [intros ?; discriminate | intros [? ?]; exfalso]
       end.
  all: intuition congruence.
Qed.

(** X15. Filters added by [add_filter] never share a key: from an empty
    filter list, the entries of two different calls are disjoint dicts, so
    merging them loses nothing. *)
Theorem add_filter_entries_disjoint
    (w : World) (calls : list (PyVal * PyVal * PyVal)) (i j : nat)
    (e e' : gmap string PyVal) :
  _filters w = [] →
  _filters (add_filters w calls) !! i = Some e →
  _filters (add_filters w calls) !! j = Some e' →
  i ≠ j →
  e ##ₘ e'.
Proof.
  intros Hw Hi Hj Hne.
  rewrite add_filters_lookup in Hi, Hj by assumption.
  destruct (calls !! i) as [ci|]; [|discriminate].
  destruct (calls !! j) as [cj|]; [|discriminate].
  injection Hi as <-. injection Hj as <-.
  apply map_disjoint_dom.
  destruct (filter_entry_dom i ci) as [-> _].
  destruct (filter_entry_dom j cj) as [-> _].
  pose proof (filter_keys_apart i j) as (? & ? & ?).
  pose proof (filter_keys_apart j i) as (? & ? & ?).
  intros k Hk Hk'.
  rewrite !elem_of_union, !elem_of_singleton in Hk, Hk'.
  destruct Hk as [[->| ->]| ->]; destruct Hk' as [[Hk'|Hk']|Hk'].
  all: first [ by apply field_key_inj in Hk'
             | by apply operator_key_inj in Hk'
             | by apply value_key_inj in Hk'
             | congruence ].
Qed.

Lemma add_filter_entries_disjoint_witness :
  filter_entry 0 (PyStr "status", PyStr "=", PyStr "Launched")
  ##ₘ filter_entry 1 (PyStr "istestdata", PyStr "<>", PyBool true).
Proof.
  apply (add_filter_entries_disjoint (SurveyGizmo alice)
           [(PyStr "status", PyStr "=", PyStr "Launched");
            (PyStr "istestdata", PyStr "<>", PyBool true)] 0 1).
  - reflexivity.
  - reflexivity.
  - reflexivity.
  - discriminate.
Defined.
